(** * Mapty: the workout log of [script.js]

    A shallow embedding of the classes [Workout], [Running], [Cycling] and
    [App] of [src/script.js], and the properties of the entry model and of
    the entry log that the specification states about them.

    Conventions of the embedding.
    - A JavaScript Number is an IEEE 754 binary64 value, here a
      [spec_float] with precision 53 and maximal exponent 1024; the
      division is the Standard Library's correctly rounded [SFdiv].
    - A JavaScript string is a [string]; only ASCII text occurs in the
      program's own literals.
    - The time value of a [Date] is an integer number of milliseconds
      since the epoch, a [Z].
    - An object is the list of its own properties in property order, so
      that [JSON.stringify] writes them in that order.
    - The text stored under the key [workouts] is kept as the JSON document
      it spells.
    - A method of [App] is a function from the state to an outcome, a
      return or a throw, with the state as the method left it.
    - The host supplies what the source takes from its environment: the
      [Number(...)] conversion of a form field's text, the offset of local
      time, the readings of the clock, the events.
    - Of the page, the form's input texts and its [hidden] class, the
      rendered list and the alerts are represented; focus, the classes of
      the cadence and elevation rows ([_toggleElevationField]) and the
      display style are not. Of Leaflet, the view and the markers asked
      for are represented. A storage that refuses to read or write is not
      represented. *)

From Stdlib Require Import ZArith List String Ascii Bool Lia.
From Stdlib Require Import SpecFloat PrimFloat FloatOps.
Import ListNotations.

#[local] Set Warnings "-register-all,-inexact-float".

Local Open Scope string_scope.
Local Open Scope list_scope.
Local Open Scope Z_scope.

(** ** Numbers *)

Module Num.

Definition number := spec_float.

Definition prec : Z := 53.
Definition emax : Z := 1024.

Definition zero : number := S754_zero false.
Definition neg_zero : number := S754_zero true.
Definition nan : number := S754_nan.
Definition infinity : number := S754_infinity false.

(** The literal [60] of [calcSpeed]. *)
Definition sixty : number := Eval vm_compute in Prim2SF 60%float.

(** [x / y] *)
Definition div (x y : number) : number := SFdiv prec emax x y.

(** [x > y] *)
Definition gt (x y : number) : bool := SFltb y x.

(** [x === y] on Numbers *)
Definition strict_eq (x y : number) : bool := SFeqb x y.

(** [Number.isFinite(x)] for a Number [x] *)
Definition isFinite (x : number) : bool :=
  match x with
  | S754_zero _ | S754_finite _ _ _ => true
  | S754_infinity _ | S754_nan => false
  end.

(** The Number nearest to an integer. *)
Definition of_Z (n : Z) : number := binary_normalize prec emax n 0 false.

End Num.

Abbreviation number := Num.number.

(** ** Strings *)

Module Str.

Definition chars (s : string) : list ascii := list_ascii_of_string s.
Definition of_chars (l : list ascii) : string := string_of_list_ascii l.

(** [s.slice(start)]: from [start] to the end; a negative [start] counts
    from the end, and both are clamped to the string. *)
Definition slice (s : string) (start : Z) : string :=
  let len := Z.of_nat (String.length s) in
  let from := if start <? 0 then Z.max (len + start) 0 else Z.min start len in
  of_chars (skipn (Z.to_nat from) (chars s)).

(** [c.toUpperCase()] on an ASCII character. *)
Definition upper_char (c : ascii) : ascii :=
  let n := nat_of_ascii c in
  if (andb (Nat.leb 97 n) (Nat.leb n 122)) then ascii_of_nat (n - 32) else c.

Definition digit_char (d : Z) : ascii := ascii_of_nat (48 + Z.to_nat d).

(** Decimal digits of a natural number, least significant first. *)
Fixpoint lsd_fuel (fuel : nat) (n : Z) : list Z :=
  n mod 10 ::
    (if n / 10 =? 0 then []
     else match fuel with
          | O => []
          | S fuel' => lsd_fuel fuel' (n / 10)
          end).

Definition lsd (n : Z) : list Z := lsd_fuel (Z.to_nat (Z.log2 n)) n.

Definition digits (n : Z) : string := of_chars (rev (map digit_char (lsd n))).

(** [n.toString()] for an integral Number below 10^21, which prints
    without exponent; every time value is in that range. *)
Definition Z_toString (n : Z) : string :=
  if n <? 0 then String "-" (digits (- n)) else digits n.

(** [n] in at least [w] digits, padded with zeros on the left. *)
Definition pad (w : nat) (n : Z) : string :=
  let ds := lsd n in
  of_chars (rev (map digit_char (ds ++ repeat 0 (w - List.length ds)))).

(** The number a list of digits (least significant first) denotes. *)
Fixpoint lsd_value (ds : list Z) : Z :=
  match ds with
  | [] => 0
  | d :: ds' => d + 10 * lsd_value ds'
  end.

End Str.

(** ** Dates *)

Module DateTime.

Definition msPerDay : Z := 86400000.

(** Time values a [Date] can hold (TimeClip). *)
Definition in_range (t : Z) : bool := Z.abs t <=? 8640000000000000.

(** Year, month (1..12) and day of the month of the day number [z],
    counted from 1970-01-01, in the proleptic Gregorian calendar. *)
Definition civil_from_days (z0 : Z) : Z * Z * Z :=
  let z := z0 + 719468 in
  let era := z / 146097 in
  let doe := z - era * 146097 in
  let yoe := (doe - doe / 1460 + doe / 36524 - doe / 146096) / 365 in
  let y := yoe + era * 400 in
  let doy := doe - (365 * yoe + yoe / 4 - yoe / 100) in
  let mp := (5 * doy + 2) / 153 in
  let d := doy - (153 * mp + 2) / 5 + 1 in
  let m := if mp <? 10 then mp + 3 else mp - 9 in
  (if m <=? 2 then y + 1 else y, m, d).

Definition YearFromTime (t : Z) : Z := fst (fst (civil_from_days (t / msPerDay))).
(** 0-based, as [getMonth] returns it. *)
Definition MonthFromTime (t : Z) : Z := snd (fst (civil_from_days (t / msPerDay))) - 1.
Definition DateFromTime (t : Z) : Z := snd (civil_from_days (t / msPerDay)).

Definition year_string (y : Z) : string :=
  if andb (0 <=? y) (y <=? 9999) then Str.pad 4 y
  else if y <? 0 then String "-" (Str.pad 6 (- y))
  else String "+" (Str.pad 6 y).

(** [d.toISOString()] of a date with time value [t]. *)
Definition toISOString (t : Z) : string :=
  let ms := t mod msPerDay in
  (year_string (YearFromTime t) ++ "-" ++ Str.pad 2 (MonthFromTime t + 1) ++ "-"
    ++ Str.pad 2 (DateFromTime t) ++ "T" ++ Str.pad 2 (ms / 3600000) ++ ":"
    ++ Str.pad 2 (ms / 60000 mod 60) ++ ":" ++ Str.pad 2 (ms / 1000 mod 60) ++ "."
    ++ Str.pad 3 (ms mod 1000) ++ "Z")%string.

End DateTime.


(** ** JavaScript values *)

Module JS.

(** The values the program handles. An object is its own properties in
    property order; an array is its elements; a [Date] is its time value.
    Functions and prototypes are not represented: the program stores no
    function in an object and, once an entry is constructed, calls none of
    its methods. *)
Inductive value : Type :=
| VUndefined
| VNull
| VBool (b : bool)
| VNumber (x : number)
| VString (s : string)
| VDate (t : Z)
| VArray (elems : list value)
| VObject (props : list (string * value)).

Definition props := list (string * value).

(** [!!v] *)
Definition truthy (v : value) : bool :=
  match v with
  | VUndefined | VNull => false
  | VBool b => b
  | VNumber x =>
      match x with
      | S754_zero _ | S754_nan => false
      | _ => true
      end
  | VString s => negb (s =? "")%string
  | VDate _ | VArray _ | VObject _ => true
  end.

(** [v === s] for a string [s] *)
Definition is_string (v : value) (s : string) : bool :=
  match v with
  | VString s' => (s' =? s)%string
  | _ => false
  end.

Definition is_digit (c : ascii) : bool :=
  let n := nat_of_ascii c in andb (Nat.leb 48 n) (Nat.leb n 57).

Definition digit_value (c : ascii) : Z := Z.of_nat (nat_of_ascii c) - 48.

(** A property name is an array index when it is the canonical decimal
    string of an integer from 0 to 2^32 - 2. *)
Definition array_index (k : string) : option Z :=
  let cs := Str.chars k in
  if forallb is_digit cs then
    let n := fold_left (fun acc c => 10 * acc + digit_value c) cs 0 in
    if andb (Str.digits n =? k)%string (n <? 4294967295) then Some n else None
  else None.

Fixpoint has_key (k : string) (ps : props) : bool :=
  match ps with
  | [] => false
  | (k', _) :: ps' => if (k' =? k)%string then true else has_key k ps'
  end.

Fixpoint lookup (k : string) (ps : props) : option value :=
  match ps with
  | [] => None
  | (k', v) :: ps' => if (k' =? k)%string then Some v else lookup k ps'
  end.

Fixpoint update (k : string) (v : value) (ps : props) : props :=
  match ps with
  | [] => []
  | (k', v') :: ps' =>
      if (k' =? k)%string then (k, v) :: ps' else (k', v') :: update k v ps'
  end.

(** A new index property goes among the index properties, in ascending
    order, before every other property. *)
Fixpoint insert_index (n : Z) (k : string) (v : value) (ps : props) : props :=
  match ps with
  | [] => [(k, v)]
  | (k', v') :: ps' =>
      match array_index k' with
      | Some n' => if n' <? n then (k', v') :: insert_index n k v ps' else (k, v) :: ps
      | None => (k, v) :: ps
      end
  end.

(** [o[k] = v] on an ordinary object: an existing property keeps its place,
    a new one is created, index properties first and the others in creation
    order. *)
Definition set (k : string) (v : value) (ps : props) : props :=
  if has_key k ps then update k v ps
  else match array_index k with
       | Some n => insert_index n k v ps
       | None => ps ++ [(k, v)]
       end.

(** [v.k], for a data property [k]; [None] is the TypeError of reading a
    property of [undefined] or [null]. A name that only a prototype
    defines reads as [undefined] here: the program reads no such name from
    a value of the log. *)
Definition get (v : value) (k : string) : option value :=
  match v with
  | VUndefined | VNull => None
  | VObject ps =>
      Some (match lookup k ps with Some x => x | None => VUndefined end)
  | VArray l =>
      Some (if (k =? "length")%string then VNumber (Num.of_Z (Z.of_nat (List.length l)))
            else match array_index k with
                 | Some n => nth (Z.to_nat n) l VUndefined
                 | None => VUndefined
                 end)
  | VString s =>
      Some (if (k =? "length")%string then VNumber (Num.of_Z (Z.of_nat (String.length s)))
            else match array_index k with
                 | Some n =>
                     match String.get (Z.to_nat n) s with
                     | Some c => VString (String c "")
                     | None => VUndefined
                     end
                 | None => VUndefined
                 end)
  | VBool _ | VNumber _ | VDate _ => Some VUndefined
  end.

End JS.

Export JS.

(** ** JSON *)

Module JSON.

(** A JSON text, by the document it spells: members in their order, and a
    number token by the Number it denotes. The stored snapshot is kept in
    this form; white space is the only thing a text adds to it, and
    [JSON.stringify] writes none. *)
Inductive json : Type :=
| JNull
| JBool (b : bool)
| JNumber (x : number)
| JString (s : string)
| JArray (items : list json)
| JObject (members : list (string * json)).

(** The token of a finite Number: negative zero is written [0]. *)
Definition number_token (x : number) : number :=
  match x with
  | S754_zero _ => Num.zero
  | _ => x
  end.

(** [JSON.stringify(v)]; [None] is the [undefined] it returns for
    [undefined]. In an array [undefined] is written [null], in an object the
    property is left out; a Number that is not finite is written [null]; a
    [Date] is written by its [toJSON], the ISO string, or [null] for an
    invalid date. *)
Fixpoint stringify (v : value) : option json :=
  match v with
  | VUndefined => None
  | VNull => Some JNull
  | VBool b => Some (JBool b)
  | VNumber x => Some (if Num.isFinite x then JNumber (number_token x) else JNull)
  | VString s => Some (JString s)
  | VDate t =>
      Some (if DateTime.in_range t then JString (DateTime.toISOString t) else JNull)
  | VArray l =>
      Some (JArray (List.map (fun e => match stringify e with
                                       | Some j => j
                                       | None => JNull
                                       end) l))
  | VObject ps =>
      Some (JObject (List.flat_map (fun kv => match stringify (snd kv) with
                                              | Some j => [(fst kv, j)]
                                              | None => []
                                              end) ps))
  end.

(** [JSON.parse] of the text of a document: objects are built member by
    member, so a repeated name keeps its first place and its last value. *)
Fixpoint parse (j : json) : value :=
  match j with
  | JNull => VNull
  | JBool b => VBool b
  | JNumber x => VNumber x
  | JString s => VString s
  | JArray l => VArray (List.map parse l)
  | JObject ms =>
      VObject (fold_left (fun ps kj => JS.set (fst kj) (parse (snd kj)) ps) ms [])
  end.

End JSON.

(** ** The entry model: [Workout], [Running], [Cycling] *)

Module Entry.

(** The two clock readings a construction takes: [new Date()] for the
    [date] field and [Date.now()] for the [id] field. *)
Record clock : Type := { Date_new : Z; Date_now : Z }.

Definition months : list string :=
  ["January"; "February"; "March"; "April"; "May"; "June"; "July"; "August";
   "September"; "October"; "November"; "December"]%string.

(** A field that holds a Number, as read by the arithmetic of [calcPace]
    and [calcSpeed]; a missing field converts to NaN. *)
Definition number_field (k : string) (this : props) : number :=
  match JS.lookup k this with
  | Some (VNumber x) => x
  | _ => Num.nan
  end.

(** [s[0].toUpperCase() + s.slice(1)] *)
Definition capitalize (s : string) : string :=
  match s with
  | EmptyString => EmptyString
  | String c _ => String (Str.upper_char c) (Str.slice s 1)
  end.

(** [Date.now().toString().slice(-10)] *)
Definition new_id (now : Z) : string := Str.slice (Str.Z_toString now) (-10).

(** The template of [_setDescription], for a [type] and the local time of
    the [date]: the kind capitalized, the month's name and the day. *)
Definition description (type : string) (local : Z) : string :=
  (capitalize type ++ " on "
     ++ nth (Z.to_nat (DateTime.MonthFromTime local)) months "" ++ " "
     ++ Str.Z_toString (DateTime.DateFromTime local))%string.

Section Host.

(** The offset of local time from UTC, in milliseconds, at a time value. *)
Variable LocalTZA : Z -> Z.

(** The field initializers [date] and [id], then the constructor body. *)
Definition Workout (c : clock) (coordinates : value) (distance duration : number)
  : props :=
  let this := [] in
  let this := JS.set "date" (VDate (Date_new c)) this in
  let this := JS.set "id" (VString (new_id (Date_now c))) this in
  let this := JS.set "coordinates" coordinates this in
  let this := JS.set "distance" (VNumber distance) this in
  let this := JS.set "duration" (VNumber duration) this in
  this.

(** [type] is ["running"] or ["cycling"] and [date] a [Date] wherever this
    is called; the last branch is never taken. *)
Definition _setDescription (this : props) : props :=
  match JS.lookup "type" this, JS.lookup "date" this with
  | Some (VString type), Some (VDate t) =>
      JS.set "description" (VString (description type (t + LocalTZA t))) this
  | _, _ => this
  end.

Definition calcPace (this : props) : props :=
  JS.set "pace"
    (VNumber (Num.div (number_field "duration" this) (number_field "distance" this)))
    this.

Definition calcSpeed (this : props) : props :=
  JS.set "speed"
    (VNumber (Num.div (number_field "distance" this)
                (Num.div (number_field "duration" this) Num.sixty)))
    this.

(** [new Running(coordinates, distance, duration, cadence)] *)
Definition Running (c : clock) (coordinates : value) (distance duration cadence : number)
  : value :=
  let this := Workout c coordinates distance duration in
  let this := JS.set "type" (VString "running") this in
  let this := JS.set "cadence" (VNumber cadence) this in
  let this := calcPace this in
  let this := _setDescription this in
  VObject this.

(** [new Cycling(coordinates, distance, duration, elevation)] *)
Definition Cycling (c : clock) (coordinates : value) (distance duration elevation : number)
  : value :=
  let this := Workout c coordinates distance duration in
  let this := JS.set "type" (VString "cycling") this in
  let this := JS.set "elevation" (VNumber elevation) this in
  let this := calcSpeed this in
  let this := _setDescription this in
  VObject this.

End Host.

End Entry.

(** ** The application: [App] *)

Module App.

Inductive error : Type := TypeError | SyntaxError.

(** The Leaflet map, by what the program asks of it: the view last set and
    the markers added, newest first. *)
Record leaflet : Type := { center : value; zoom : Z; markers : list value }.

(** The [latlng] of a map click. *)
Record latlng : Type := { lat : number; lng : number }.

(** The text of the form's inputs, and whether the form carries the class
    [hidden]. Focus and the style of the rows are not represented. *)
Record form_fields : Type := {
  inputType : string;
  inputDistance : string;
  inputDuration : string;
  inputCadence : string;
  inputElevation : string;
  hidden : bool
}.

(** The text under the key [workouts], when it is JSON. *)
Inductive slot : Type :=
| Document (j : JSON.json)
| NotJSON.

Record state : Type := {
  map : option leaflet;           (* #map *)
  mapEvent : option latlng;       (* #mapEvent *)
  workouts : value;               (* #workouts *)
  form : form_fields;
  list_items : list value;        (* the rendered list, newest first *)
  alerts : list string;           (* the alerts shown, newest first *)
  localStorage : option slot;
  listening : bool;               (* the constructor registered its listeners *)
  locating : bool                 (* a geolocation request is pending *)
}.

Definition mapZoomLevel : Z := 13.

Definition with_map (m : option leaflet) (st : state) : state :=
  {| map := m; mapEvent := mapEvent st; workouts := workouts st; form := form st;
     list_items := list_items st; alerts := alerts st;
     localStorage := localStorage st; listening := listening st;
     locating := locating st |}.

Definition with_mapEvent (e : option latlng) (st : state) : state :=
  {| map := map st; mapEvent := e; workouts := workouts st; form := form st;
     list_items := list_items st; alerts := alerts st;
     localStorage := localStorage st; listening := listening st;
     locating := locating st |}.

Definition with_workouts (w : value) (st : state) : state :=
  {| map := map st; mapEvent := mapEvent st; workouts := w; form := form st;
     list_items := list_items st; alerts := alerts st;
     localStorage := localStorage st; listening := listening st;
     locating := locating st |}.

Definition with_form (f : form_fields) (st : state) : state :=
  {| map := map st; mapEvent := mapEvent st; workouts := workouts st; form := f;
     list_items := list_items st; alerts := alerts st;
     localStorage := localStorage st; listening := listening st;
     locating := locating st |}.

Definition with_list_items (l : list value) (st : state) : state :=
  {| map := map st; mapEvent := mapEvent st; workouts := workouts st; form := form st;
     list_items := l; alerts := alerts st;
     localStorage := localStorage st; listening := listening st;
     locating := locating st |}.

Definition with_alerts (l : list string) (st : state) : state :=
  {| map := map st; mapEvent := mapEvent st; workouts := workouts st; form := form st;
     list_items := list_items st; alerts := l;
     localStorage := localStorage st; listening := listening st;
     locating := locating st |}.

Definition with_localStorage (s : option slot) (st : state) : state :=
  {| map := map st; mapEvent := mapEvent st; workouts := workouts st; form := form st;
     list_items := list_items st; alerts := alerts st;
     localStorage := s; listening := listening st;
     locating := locating st |}.

Definition with_listening (b : bool) (st : state) : state :=
  {| map := map st; mapEvent := mapEvent st; workouts := workouts st; form := form st;
     list_items := list_items st; alerts := alerts st;
     localStorage := localStorage st; listening := b;
     locating := locating st |}.

Definition with_locating (b : bool) (st : state) : state :=
  {| map := map st; mapEvent := mapEvent st; workouts := workouts st; form := form st;
     list_items := list_items st; alerts := alerts st;
     localStorage := localStorage st; listening := listening st;
     locating := b |}.

(** *** Methods run in a state and end by returning or by throwing; what
    was written before a throw stays written. *)

Inductive outcome (A : Type) : Type :=
| Returned (a : A) (st : state)
| Thrown (e : error) (st : state).

Arguments Returned {A} a st.
Arguments Thrown {A} e st.

Definition M (A : Type) : Type := state -> outcome A.

Definition ret {A : Type} (a : A) : M A := fun st => Returned a st.

Definition bind {A B : Type} (m : M A) (k : A -> M B) : M B :=
  fun st =>
    match m st with
    | Returned a st' => k a st'
    | Thrown e st' => Thrown e st'
    end.

Definition throw {A : Type} (e : error) : M A := fun st => Thrown e st.

Definition read {A : Type} (f : state -> A) : M A := fun st => Returned (f st) st.

Definition write (f : state -> state) : M unit := fun st => Returned tt (f st).

Notation "x <- m ;; k" := (bind m (fun x => k))
  (at level 61, m at next level, right associativity).
Notation "m ;;; k" := (bind m (fun _ => k))
  (at level 61, right associativity).

Definition final_state {A : Type} (o : outcome A) : state :=
  match o with
  | Returned _ st => st
  | Thrown _ st => st
  end.

(** [v.k] *)
Definition prop (v : value) (k : string) : M value :=
  match JS.get v k with
  | Some x => ret x
  | None => throw TypeError
  end.

(** The elements of [v] for a call of an array method on it; on anything
    else the method is missing and the call throws. *)
Definition elements (v : value) : M (list value) :=
  match v with
  | VArray l => ret l
  | _ => throw TypeError
  end.

(** [l.forEach(f)] *)
Fixpoint forEach (f : value -> M unit) (l : list value) : M unit :=
  match l with
  | [] => ret tt
  | x :: l' => f x ;;; forEach f l'
  end.

(** [l.find(p)] *)
Fixpoint find (p : value -> M bool) (l : list value) : M value :=
  match l with
  | [] => ret VUndefined
  | x :: l' => b <- p x ;; if b then ret x else find p l'
  end.

(** [alert(msg)] *)
Definition alert (msg : string) : M unit :=
  write (fun st => with_alerts (msg :: alerts st) st).

(** [x.toFixed(1)], called for its text only: it throws unless [x] is a
    Number. *)
Definition toFixed (x : value) : M unit :=
  match x with
  | VNumber _ => ret tt
  | _ => throw TypeError
  end.

Definition validInputs (inputs : list number) : bool := forallb Num.isFinite inputs.

Definition allPositive (inputs : list number) : bool :=
  forallb (fun inp => Num.gt inp Num.zero) inputs.

(** What the first part of [_newWorkout] leaves: the function returned
    ([return alert(...)]), or it goes on with the local [workout]. *)
Inductive flow : Type :=
| Return
| Go (workout : value).

Definition positive_number_message : string := "Please input a positive number.".

(** [_showForm(mapE)] *)
Definition _showForm (mapE : latlng) : M unit :=
  write (fun st => with_mapEvent (Some mapE) st) ;;;
  write (fun st =>
           let f := form st in
           with_form {| inputType := inputType f; inputDistance := inputDistance f;
                        inputDuration := inputDuration f; inputCadence := inputCadence f;
                        inputElevation := inputElevation f; hidden := false |} st).

(** [_hideForm()] *)
Definition _hideForm : M unit :=
  write (fun st =>
           let f := form st in
           with_form {| inputType := inputType f; inputDistance := "";
                        inputDuration := ""; inputCadence := "";
                        inputElevation := ""; hidden := true |} st).

(** [_renderWorkoutMarker(workout)]: the marker is added to [#map]. What
    Leaflet makes of the coordinates is its own business. *)
Definition _renderWorkoutMarker (workout : value) : M unit :=
  _ <- prop workout "coordinates" ;;
  m <- read map ;;
  match m with
  | None => throw TypeError
  | Some lm =>
      _ <- prop workout "type" ;;
      _ <- prop workout "description" ;;
      write (with_map (Some {| center := center lm; zoom := zoom lm;
                               markers := workout :: markers lm |}))
  end.

(** [_renderWorkout(workout)]: the list item is built, which reads the
    fields and formats the derived metric, and is inserted after the
    form. *)
Definition _renderWorkout (workout : value) : M unit :=
  type <- prop workout "type" ;;
  (if JS.is_string type "running"
   then pace <- prop workout "pace" ;; toFixed pace
   else ret tt) ;;;
  (if JS.is_string type "cycling"
   then speed <- prop workout "speed" ;; toFixed speed
   else ret tt) ;;;
  write (fun st => with_list_items (workout :: list_items st) st).

(** [_setLocalStorage()]; [setItem] stores the text of what it is given,
    and the text of [undefined] is not JSON. *)
Definition _setLocalStorage : M unit :=
  write (fun st =>
           with_localStorage
             (Some (match JSON.stringify (workouts st) with
                    | Some j => Document j
                    | None => NotJSON
                    end)) st).

(** [_getLocalStorage()]; [getItem] of a missing key is [null], which
    [JSON.parse] reads as [null]. *)
Definition _getLocalStorage : M unit :=
  stored <- read localStorage ;;
  data <- match stored with
          | None => ret VNull
          | Some (Document j) => ret (JSON.parse j)
          | Some NotJSON => throw SyntaxError
          end ;;
  if negb (JS.truthy data) then ret tt
  else
    write (with_workouts data) ;;;
    ws <- read workouts ;;
    l <- elements ws ;;
    forEach _renderWorkout l.

(** [_loadMap(position)] *)
Definition _loadMap (latitude longitude : number) : M unit :=
  let coordinates := VArray [VNumber latitude; VNumber longitude] in
  write (with_map (Some {| center := coordinates; zoom := mapZoomLevel;
                           markers := [] |})) ;;;
  ws <- read workouts ;;
  l <- elements ws ;;
  forEach _renderWorkoutMarker l.

(** [_centerMapOnPopup(e)]; [target] is the [data-id] of the closest
    [.workout] element of the click, if there is one. *)
Definition _centerMapOnPopup (target : option string) : M unit :=
  match target with
  | None => ret tt
  | Some id =>
      ws <- read workouts ;;
      l <- elements ws ;;
      workout <- find (fun work => i <- prop work "id" ;; ret (JS.is_string i id)) l ;;
      m <- read map ;;
      match m with
      | None => throw TypeError
      | Some lm =>
          coordinates <- prop workout "coordinates" ;;
          write (with_map (Some {| center := coordinates; zoom := mapZoomLevel;
                                   markers := markers lm |}))
      end
  end.

(** [this.#workouts.push(workout)] *)
Definition push (workout : value) : M unit :=
  ws <- read workouts ;;
  l <- elements ws ;;
  write (with_workouts (VArray (l ++ [workout]))).

Section Host.

(** [Number(text)] for the text of an input. *)
Variable Number : string -> number.

Variable LocalTZA : Z -> Z.

(** [_newWorkout(e)]; [c] holds what the clock reads during the call. *)
Definition _newWorkout (c : Entry.clock) : M unit :=
  f <- read form ;;
  let type := inputType f in
  let distance := Number (inputDistance f) in
  let duration := Number (inputDuration f) in
  e <- read mapEvent ;;
  match e with
  | None => throw TypeError
  | Some ll =>
      let coordinates := VArray [VNumber (lat ll); VNumber (lng ll)] in
      running <-
        (if (type =? "running")%string then
           let cadence := Number (inputCadence f) in
           if negb (Num.isFinite distance)
              || negb (Num.isFinite duration)
              || negb (Num.isFinite cadence)
              || negb (allPositive [distance; duration; cadence])
           then alert positive_number_message ;;; ret Return
           else ret (Go (Entry.Running LocalTZA c coordinates distance duration cadence))
         else ret (Go VUndefined)) ;;
      match running with
      | Return => ret tt
      | Go workout =>
          cycling <-
            (if (type =? "cycling")%string then
               let elevation := Number (inputElevation f) in
               if negb (validInputs [distance; duration; elevation])
                  || negb (allPositive [distance; duration])
               then alert positive_number_message ;;; ret Return
               else ret (Go (Entry.Cycling LocalTZA c coordinates distance duration
                               elevation))
             else ret (Go workout)) ;;
          match cycling with
          | Return => ret tt
          | Go workout =>
              push workout ;;;
              _renderWorkout workout ;;;
              _renderWorkoutMarker workout ;;;
              _hideForm ;;;
              _setLocalStorage
          end
      end
  end.

End Host.

(** [_getPosition()]: the request is made when the host has geolocation. *)
Definition _getPosition (geolocation : bool) : M unit :=
  if geolocation then write (with_locating true) else ret tt.

(** [constructor()] *)
Definition constructor (geolocation : bool) : M unit :=
  _getPosition geolocation ;;;
  _getLocalStorage ;;;
  write (with_listening true).

(** The page as the script finds it: the form as the document has it and
    the storage as earlier sessions left it. *)
Definition page (f : form_fields) (stored : option slot) : state :=
  {| map := None; mapEvent := None; workouts := VArray []; form := f;
     list_items := []; alerts := []; localStorage := stored;
     listening := false; locating := false |}.

(** [const app = new App()] *)
Definition load (geolocation : bool) (f : form_fields) (stored : option slot) : state :=
  final_state (constructor geolocation (page f stored)).

(** [reset()]: the key is removed and the page reloaded. *)
Definition reset (geolocation : bool) (f : form_fields) (st : state) : state :=
  load geolocation f None.

(** *** Sessions *)

Inductive field : Type := Type_ | Distance | Duration | Cadence | Elevation.

Definition edit (which : field) (text : string) (f : form_fields) : form_fields :=
  match which with
  | Type_ =>
      {| inputType := text; inputDistance := inputDistance f;
         inputDuration := inputDuration f; inputCadence := inputCadence f;
         inputElevation := inputElevation f; hidden := hidden f |}
  | Distance =>
      {| inputType := inputType f; inputDistance := text;
         inputDuration := inputDuration f; inputCadence := inputCadence f;
         inputElevation := inputElevation f; hidden := hidden f |}
  | Duration =>
      {| inputType := inputType f; inputDistance := inputDistance f;
         inputDuration := text; inputCadence := inputCadence f;
         inputElevation := inputElevation f; hidden := hidden f |}
  | Cadence =>
      {| inputType := inputType f; inputDistance := inputDistance f;
         inputDuration := inputDuration f; inputCadence := text;
         inputElevation := inputElevation f; hidden := hidden f |}
  | Elevation =>
      {| inputType := inputType f; inputDistance := inputDistance f;
         inputDuration := inputDuration f; inputCadence := inputCadence f;
         inputElevation := text; hidden := hidden f |}
  end.

(** What happens to the page after the script has run. *)
Inductive event : Type :=
| PositionFound (latitude longitude : number)
| PositionDenied
| MapClicked (at_ : latlng)
| FieldEdited (which : field) (text : string)
| FormSubmitted (c : Entry.clock)
| ListClicked (target : option string).

Section Dispatch.

Variable Number : string -> number.
Variable LocalTZA : Z -> Z.

(** The handler of an event runs when it has been registered; an exception
    it throws ends it and is reported by the host, nothing else. *)
Definition dispatch (ev : event) (st : state) : state :=
  match ev with
  | PositionFound latitude longitude =>
      if locating st
      then final_state (_loadMap latitude longitude (with_locating false st))
      else st
  | PositionDenied =>
      if locating st
      then final_state (alert "Cannot access your location" (with_locating false st))
      else st
  | MapClicked ll =>
      match map st with
      | Some _ => final_state (_showForm ll st)
      | None => st
      end
  | FieldEdited which text => with_form (edit which text (form st)) st
  | FormSubmitted c =>
      if listening st then final_state (_newWorkout Number LocalTZA c st) else st
  | ListClicked target =>
      if listening st then final_state (_centerMapOnPopup target st) else st
  end.

Definition session (evs : list event) (st : state) : state :=
  fold_left (fun s ev => dispatch ev s) evs st.

End Dispatch.

End App.


(** ** Vocabulary of the statements *)

Module Log.

Import App.

(** The form as [_hideForm] leaves it. *)
Definition cleared (f : form_fields) : form_fields :=
  {| inputType := inputType f; inputDistance := ""; inputDuration := "";
     inputCadence := ""; inputElevation := ""; hidden := true |}.

(** The snapshot [_setLocalStorage] writes for a log. *)
Definition snapshot (log : value) : slot :=
  match JSON.stringify log with
  | Some j => Document j
  | None => NotJSON
  end.

(** The state after a submission that logged [workout]: appended, shown in
    the list and on the map, the form cleared, the snapshot rewritten. *)
Definition logged (workout : value) (l : list value) (lm : leaflet) (st : state) : state :=
  {| map := Some {| center := center lm; zoom := zoom lm;
                    markers := workout :: markers lm |};
     mapEvent := mapEvent st;
     workouts := VArray (l ++ [workout]);
     form := cleared (form st);
     list_items := workout :: list_items st;
     alerts := alerts st;
     localStorage := Some (snapshot (VArray (l ++ [workout])));
     listening := listening st;
     locating := locating st |}.

(** The state after a submission that was refused: the alert, and nothing
    else. *)
Definition refused (st : state) : state :=
  with_alerts (positive_number_message :: alerts st) st.

Section Host.

Variable Number : string -> number.

(** What [_newWorkout] reads from the form and from the map click. *)
Definition distance_of (st : state) : number := Number (inputDistance (form st)).
Definition duration_of (st : state) : number := Number (inputDuration (form st)).
Definition cadence_of (st : state) : number := Number (inputCadence (form st)).
Definition elevation_of (st : state) : number := Number (inputElevation (form st)).

(** The test of the running branch passes. *)
Definition running_accepted (st : state) : bool :=
  Num.isFinite (distance_of st) && Num.isFinite (duration_of st)
  && Num.isFinite (cadence_of st)
  && allPositive [distance_of st; duration_of st; cadence_of st].

(** The test of the cycling branch passes. *)
Definition cycling_accepted (st : state) : bool :=
  validInputs [distance_of st; duration_of st; elevation_of st]
  && allPositive [distance_of st; duration_of st].

Variable LocalTZA : Z -> Z.

(** A submission at clock [c] in state [st] succeeds and creates the entry
    [workout]: the handler returns and the log is longer by [workout]. *)
Definition logs (c : Entry.clock) (st : state) (workout : value) : Prop :=
  exists l st',
    workouts st = VArray l
    /\ _newWorkout Number LocalTZA c st = Returned tt st'
    /\ workouts st' = VArray (l ++ [workout]).

(** The states of a visit: the page is loaded, events follow. *)
Definition reachable (st : state) : Prop :=
  exists geolocation f stored evs,
    st = session Number LocalTZA evs (load geolocation f stored).

End Host.

(** The user types into fields of the form. *)
Definition typing (edits : list (field * string)) : list event :=
  List.map (fun e => FieldEdited (fst e) (snd e)) edits.

(** The [id]s of the entries of a log, in order. *)
Definition ids (log : value) : list (option value) :=
  match log with
  | VArray l => List.map (fun work => JS.get work "id") l
  | _ => []
  end.

(** [[lat, lng]] of a map click. *)
Definition coordinates_of (ll : latlng) : value :=
  VArray [VNumber (lat ll); VNumber (lng ll)].

(** [persist] and [restore] of the specification. *)
Definition persist (st : state) : state := final_state (_setLocalStorage st).
Definition restore (st : state) : state := final_state (_getLocalStorage st).

(** The page of the next visit: nothing in memory, the storage as it was
    left. *)
Definition next_visit (f : form_fields) (st : state) : state :=
  page f (localStorage st).

Definition is_array (v : value) : bool :=
  match v with
  | VArray _ => true
  | _ => false
  end.

(** What holds of the state whenever a handler runs: once the listeners
    are registered the log is an array, and a map click has been recorded
    only on a map that exists. *)
Definition consistent (st : state) : Prop :=
  (listening st = true -> is_array (workouts st) = true)
  /\ (mapEvent st <> None -> map st <> None).

(** [work.id === id], where it can be evaluated. *)
Definition has_id (id : string) (work : value) : bool :=
  match JS.get work "id" with
  | Some i => JS.is_string i id
  | None => false
  end.

(** The test of the search of [_centerMapOnPopup], as it is run. *)
Definition by_id (id : string) : value -> M bool :=
  fun work => i <- prop work "id" ;; ret (JS.is_string i id).

(** Neither [undefined] nor [null]. *)
Definition defined (v : value) : bool :=
  match v with
  | VUndefined | VNull => false
  | _ => true
  end.

(** The values JSON spells exactly: strings, booleans, [null], the finite
    Numbers but negative zero, and arrays and records of such, a record
    having distinct names none of which is an array index. *)
Fixpoint plain (v : value) : Prop :=
  match v with
  | VUndefined | VDate _ => False
  | VNull | VBool _ | VString _ => True
  | VNumber x => Num.isFinite x = true /\ x <> Num.neg_zero
  | VArray l => (fix all (l : list value) : Prop :=
                   match l with
                   | [] => True
                   | x :: l' => plain x /\ all l'
                   end) l
  | VObject ps =>
      NoDup (List.map fst ps)
      /\ (forall k, In k (List.map fst ps) -> JS.array_index k = None)
      /\ (fix all (ps : list (string * value)) : Prop :=
            match ps with
            | [] => True
            | kv :: ps' => plain (snd kv) /\ all ps'
            end) ps
  end.

End Log.

(** ** Vocabulary of the snapshot *)

Module Snapshot.

Import JSON.

(** Induction on values, through the elements of arrays and the properties
    of objects. *)
Section ValueInduction.

Variable P : value -> Prop.

Hypothesis HUndefined : P VUndefined.
Hypothesis HNull : P VNull.
Hypothesis HBool : forall b, P (VBool b).
Hypothesis HNumber : forall x, P (VNumber x).
Hypothesis HString : forall s, P (VString s).
Hypothesis HDate : forall t, P (VDate t).
Hypothesis HArray : forall l, Forall P l -> P (VArray l).
Hypothesis HObject : forall ps, Forall (fun kv => P (snd kv)) ps -> P (VObject ps).

Fixpoint value_induction (v : value) : P v :=
  match v with
  | VUndefined => HUndefined
  | VNull => HNull
  | VBool b => HBool b
  | VNumber x => HNumber x
  | VString s => HString s
  | VDate t => HDate t
  | VArray l =>
      HArray l ((fix all (l : list value) : Forall P l :=
                   match l with
                   | [] => Forall_nil P
                   | x :: l' => Forall_cons x (value_induction x) (all l')
                   end) l)
  | VObject ps =>
      HObject ps ((fix all (ps : list (string * value))
                    : Forall (fun kv => P (snd kv)) ps :=
                     match ps with
                     | [] => Forall_nil _
                     | kv :: ps' =>
                         Forall_cons kv (value_induction (snd kv)) (all ps')
                     end) ps)
  end.

End ValueInduction.

(** The member an object property is written as, if any. *)
Definition member (kv : string * value) : list (string * json) :=
  match stringify (snd kv) with
  | Some j => [(fst kv, j)]
  | None => []
  end.

(** The item an array element is written as. *)
Definition item (e : value) : json :=
  match stringify e with
  | Some j => j
  | None => JNull
  end.

(** The object [JSON.parse] builds from members, added to [acc]. *)
Definition build (ms : list (string * json)) (acc : props) : props :=
  fold_left (fun ps kj => JS.set (fst kj) (parse (snd kj)) ps) ms acc.

(** The member of a name that [JSON.parse] keeps: the last one. *)
Fixpoint latest (k : string) (ms : list (string * json)) : option json :=
  match ms with
  | [] => None
  | (k', j) :: ms' =>
      match latest k ms' with
      | Some j' => Some j'
      | None => if (k' =? k)%string then Some j else None
      end
  end.

End Snapshot.

(** ** Vocabulary of the page *)

Module Page.

Import App.

(** The elements of a log that is an array. *)
Definition entries (log : value) : list value :=
  match log with
  | VArray l => l
  | _ => []
  end.

(** [_renderWorkout] can build the list item of [work]: it is neither
    [undefined] nor [null], and the metric of its kind, if it has one of
    the two kinds, is a Number. *)
Definition renderable (work : value) : bool :=
  match JS.get work "type" with
  | None => false
  | Some type =>
      (if JS.is_string type "running"
       then match JS.get work "pace" with
            | Some (VNumber _) => true
            | _ => false
            end
       else true)
      && (if JS.is_string type "cycling"
          then match JS.get work "speed" with
               | Some (VNumber _) => true
               | _ => false
               end
          else true)
  end.

(** What is shown is in the log: every list item and every marker is an
    entry. *)
Definition shown_are_logged (st : state) : Prop :=
  incl (list_items st) (entries (workouts st))
  /\ forall lm, map st = Some lm -> incl (markers lm) (entries (workouts st)).

(** The number of submissions of the form among events. *)
Definition submissions (evs : list event) : nat :=
  List.length (List.filter (fun ev => match ev with
                                      | FormSubmitted _ => true
                                      | _ => false
                                      end) evs).

(** Objects all through [v] have distinct property names, none of them an
    array index. *)
Fixpoint tidy (v : value) : Prop :=
  match v with
  | VArray l => (fix all (l : list value) : Prop :=
                   match l with
                   | [] => True
                   | x :: l' => tidy x /\ all l'
                   end) l
  | VObject ps =>
      NoDup (List.map fst ps)
      /\ (forall k, In k (List.map fst ps) -> JS.array_index k = None)
      /\ (fix all (ps : list (string * value)) : Prop :=
            match ps with
            | [] => True
            | kv :: ps' => tidy (snd kv) /\ all ps'
            end) ps
  | _ => True
  end.

End Page.
(** ** A host and some sessions, for the examples *)

Module Sample.

Import App.

(** [Number] on the texts the examples type into the form. *)
Definition Number (text : string) : number :=
  if (text =? "5.2")%string then Num.div (Num.of_Z 52) (Num.of_Z 10)
  else if (text =? "24")%string then Num.of_Z 24
  else if (text =? "178")%string then Num.of_Z 178
  else if (text =? "20")%string then Num.of_Z 20
  else if (text =? "95")%string then Num.of_Z 95
  else if (text =? "-120")%string then Num.of_Z (-120)
  else if (text =? "-5")%string then Num.of_Z (-5)
  else if (text =? "0")%string then Num.zero
  else if (text =? "")%string then Num.zero
  else if (text =? "Infinity")%string then Num.infinity
  else Num.nan.

(** A host on UTC. *)
Definition UTC (t : Z) : Z := 0.

Definition blank : form_fields :=
  {| inputType := "running"; inputDistance := ""; inputDuration := "";
     inputCadence := ""; inputElevation := ""; hidden := true |}.

Definition here : latlng := {| lat := Num.of_Z 40; lng := Num.of_Z (-73) |}.

Definition at_time (t : Z) : Entry.clock := {| Entry.Date_new := t; Entry.Date_now := t |}.

Definition t0 : Z := 1700000000000.

Definition fill_running : list event :=
  [FieldEdited Type_ "running"; FieldEdited Distance "5.2";
   FieldEdited Duration "24"; FieldEdited Cadence "178"].

Definition fill_cycling : list event :=
  [FieldEdited Type_ "cycling"; FieldEdited Distance "20";
   FieldEdited Duration "95"; FieldEdited Elevation "-120"].

(** A first visit: the map loads and is clicked. *)
Definition ready : state :=
  session Number UTC
    [PositionFound (Num.of_Z 40) (Num.of_Z (-74)); MapClicked here]
    (load true blank None).

(** The form is filled for a run. *)
Definition run_typed : state := session Number UTC fill_running ready.

(** The entry of that run, submitted at [t0]. *)
Definition the_run : value :=
  Entry.Running UTC (at_time t0) (Log.coordinates_of here)
    (Number "5.2") (Number "24") (Number "178").

(** One run is logged. *)
Definition one_run : state :=
  session Number UTC (fill_running ++ [FormSubmitted (at_time t0)]) ready.

(** The form is filled for a ride. *)
Definition ride_typed : state := session Number UTC fill_cycling one_run.

(** The entry of that ride, submitted 5 s after the run. *)
Definition the_ride : value :=
  Entry.Cycling UTC (at_time (t0 + 5000)) (Log.coordinates_of here)
    (Number "20") (Number "95") (Number "-120").

(** The ride with an elevation that is not finite. *)
Definition endless_climb_typed : state :=
  session Number UTC [FieldEdited Elevation "Infinity"] ride_typed.

(** The run with a cadence of zero. *)
Definition no_cadence_typed : state :=
  session Number UTC [FieldEdited Cadence "0"] run_typed.

(** A ride submitted 10^10 ms after the run. *)
Definition late_ride : value :=
  Entry.Cycling UTC (at_time (t0 + 10000000000)) (Log.coordinates_of here)
    (Number "20") (Number "95") (Number "-120").

(** The map once both are on it. *)
Definition both_on_map : leaflet :=
  {| center := VArray [VNumber (Num.of_Z 40); VNumber (Num.of_Z (-74))];
     zoom := 13; markers := [late_ride; the_run] |}.

(** A run, and a ride 10^10 ms later, about 116 days. *)
Definition two_entries : state :=
  session Number UTC (fill_cycling ++ [FormSubmitted (at_time (t0 + 10000000000))])
    one_run.

(** A run of distance -5 is typed. *)
Definition minus_five_typed : state :=
  session Number UTC
    [FieldEdited Type_ "running"; FieldEdited Distance "-5";
     FieldEdited Duration "24"; FieldEdited Cadence "178"] ready.

(** It is submitted. *)
Definition refused : state :=
  session Number UTC [FormSubmitted (at_time t0)] minus_five_typed.

(** The distance is put right and the form submitted again, with no click
    on the map in between. *)
Definition retried : state :=
  session Number UTC [FieldEdited Distance "5.2"; FormSubmitted (at_time (t0 + 5000))]
    refused.

(** The kind selector holds a third value. *)
Definition swimming : state :=
  with_form (edit Type_ "swimming" (form ready)) ready.

(** A snapshot of one ride whose stored speed, 99, is not 20 / (95 / 60). *)
Definition stale_items : list JSON.json :=
  [JSON.JObject
     [("date", JSON.JString "2023-11-14T22:13:20.000Z");
      ("id", JSON.JString "0000000000");
      ("coordinates", JSON.JArray [JSON.JNumber (Num.of_Z 40);
                                   JSON.JNumber (Num.of_Z (-73))]);
      ("distance", JSON.JNumber (Num.of_Z 20));
      ("duration", JSON.JNumber (Num.of_Z 95));
      ("type", JSON.JString "cycling");
      ("elevation", JSON.JNumber (Num.of_Z (-120)));
      ("speed", JSON.JNumber (Num.of_Z 99));
      ("description", JSON.JString "Cycling on November 14")]].

(** The page of a visit that finds this snapshot. *)
Definition stale_page : state :=
  page blank (Some (Document (JSON.JArray stale_items))).

(** [Number] also on the texts of the largest Number and of the smallest
    above zero. *)
Definition Number_wide (text : string) : number :=
  if (text =? "1.7976931348623157e308")%string
  then S754_finite false 9007199254740991 971
  else if (text =? "5e-324")%string then S754_finite false 1 (-1074)
  else Number text.

(** A ride of the largest distance in the shortest time is typed. *)
Definition fastest_ride_typed : state :=
  session Number_wide UTC
    [FieldEdited Type_ "cycling"; FieldEdited Distance "1.7976931348623157e308";
     FieldEdited Duration "5e-324"; FieldEdited Elevation "0"] ready.

(** The kind ["swimming"] is submitted, then a run is typed. *)
Definition run_typed_after_swimming : state :=
  session Number UTC
    ([FieldEdited Type_ "swimming"; FormSubmitted (at_time t0)] ++ fill_running)
    ready.

End Sample.
Example Z_toString_now : Str.Z_toString 1700000000000 = "1700000000000".
Proof. reflexivity. Qed.

Example Z_toString_neg : Str.Z_toString (-42) = "-42".
Proof. reflexivity. Qed.

Example slice_last10 : Str.slice "1700000000123" (-10) = "0000000123".
Proof. reflexivity. Qed.

Example slice_short : Str.slice "12345" (-10) = "12345".
Proof. reflexivity. Qed.

Example slice_one : Str.slice "running" 1 = "unning".
Proof. reflexivity. Qed.

Example iso_2023 : DateTime.toISOString 1700000000000 = "2023-11-14T22:13:20.000Z".
Proof. reflexivity. Qed.

Example iso_leap : DateTime.toISOString 951782400000 = "2000-02-29T00:00:00.000Z".
Proof. reflexivity. Qed.

Example iso_before_epoch : DateTime.toISOString (-1) = "1969-12-31T23:59:59.999Z".
Proof. reflexivity. Qed.

Example sixty_is_60 : Num.sixty = Num.of_Z 60.
Proof. reflexivity. Qed.

(** The first scenario of the specification: a run of 5.2 km in 24 min at
    178 steps/min is logged with the pace 4.615..., a label with the month
    and the day, and a snapshot of one record. *)
Example one_run_logged :
  App.workouts Sample.one_run = VArray [Sample.the_run]
  /\ JS.get Sample.the_run "pace" = Some (VNumber (Prim2SF 4.615384615384615%float))
  /\ JS.get Sample.the_run "description" = Some (VString "Running on November 14")
  /\ exists record,
      App.localStorage Sample.one_run
      = Some (App.Document (JSON.JArray [JSON.JObject record])).
Proof.
  split; [vm_compute; reflexivity |]. split; [vm_compute; reflexivity |].
  split; [vm_compute; reflexivity |]. eexists. vm_compute. reflexivity.
Qed.

(** A ride of 20 km in 95 min has the speed 12.63... *)
Example ride_speed :
  JS.get Sample.the_ride "speed" = Some (VNumber (Prim2SF 12.631578947368421%float)).
Proof. vm_compute. reflexivity. Qed.
(** * Decimal digits and the last ten characters *)

Module StrFacts.

Import Str.

Lemma length_of_chars (l : list ascii) :
  String.length (of_chars l) = List.length l.
Proof.
  induction l as [|c l IH]; simpl; [reflexivity | now rewrite IH].
Qed.

Lemma chars_of_chars (l : list ascii) : chars (of_chars l) = l.
Proof. apply list_ascii_of_string_of_list_ascii. Qed.

Lemma of_chars_inj (l l' : list ascii) : of_chars l = of_chars l' -> l = l'.
Proof.
  intros H. rewrite <- (chars_of_chars l), <- (chars_of_chars l'). now rewrite H.
Qed.

Definition is_decimal (ds : list Z) : Prop := Forall (fun d => 0 <= d < 10) ds.

Lemma lsd_fuel_decimal (fuel : nat) (n : Z) : is_decimal (lsd_fuel fuel n).
Proof.
  revert n. induction fuel as [|fuel IH]; intros n; simpl.
  - constructor; [apply Z.mod_pos_bound; lia |].
    destruct (n / 10 =? 0); constructor.
  - constructor; [apply Z.mod_pos_bound; lia |].
    destruct (n / 10 =? 0); [constructor | apply IH].
Qed.

Lemma lsd_decimal (n : Z) : is_decimal (lsd n).
Proof. apply lsd_fuel_decimal. Qed.

(** The digits denote the number, when the fuel covers its binary size. *)
Lemma lsd_fuel_value (fuel : nat) (n : Z) :
  0 <= n < 2 ^ (Z.of_nat fuel + 1) -> lsd_value (lsd_fuel fuel n) = n.
Proof.
  revert n. induction fuel as [|fuel IH]; intros n Hn.
  - simpl in *. assert (n / 10 = 0) as -> by (apply Z.div_small; lia).
    simpl. rewrite Z.mod_small; lia.
  - cbn [lsd_fuel]. destruct (n / 10 =? 0) eqn:E.
    + apply Z.eqb_eq in E. simpl. pose proof (Z.div_mod n 10). lia.
    + cbn [lsd_value]. rewrite IH.
      * pose proof (Z.div_mod n 10). lia.
      * split; [apply Z.div_pos; lia |].
        replace (Z.of_nat (S fuel) + 1) with (Z.succ (Z.of_nat fuel + 1)) in Hn by lia.
        rewrite Z.pow_succ_r in Hn by lia.
        apply Z.div_lt_upper_bound; lia.
Qed.

Lemma lsd_value_lsd (n : Z) : 0 <= n -> lsd_value (lsd n) = n.
Proof.
  intros Hn. unfold lsd. apply lsd_fuel_value.
  destruct (Z.eq_dec n 0) as [-> | Hnz]; [simpl; lia |].
  rewrite Z2Nat.id by apply Z.log2_nonneg.
  pose proof (Z.log2_spec n ltac:(lia)) as [_ H].
  replace (Z.log2 n + 1) with (Z.succ (Z.log2 n)) by lia. lia.
Qed.

(** The first [k] digits denote the number modulo [10 ^ k]. *)
Lemma lsd_value_firstn (k : nat) (ds : list Z) :
  is_decimal ds -> lsd_value (firstn k ds) = lsd_value ds mod 10 ^ Z.of_nat k.
Proof.
  revert ds. induction k as [|k IH]; intros ds Hds.
  - simpl. now rewrite Z.mod_1_r.
  - destruct ds as [|d ds]; [simpl; now rewrite Z.mod_0_l by lia |].
    inversion Hds as [|? ? Hd Hds']; subst.
    cbn [firstn lsd_value]. rewrite (IH ds Hds').
    replace (Z.of_nat (S k)) with (Z.succ (Z.of_nat k)) by lia.
    rewrite Z.pow_succ_r by lia.
    set (p := 10 ^ Z.of_nat k). set (V := lsd_value ds).
    assert (0 < p) by (apply Z.pow_pos_nonneg; lia).
    pose proof (Z.div_mod V p ltac:(lia)) as HV.
    pose proof (Z.mod_pos_bound V p ltac:(lia)) as Hr.
    apply (Z.mod_unique _ _ (V / p)); [left; lia | lia].
Qed.

Lemma digit_char_inj (d d' : Z) :
  0 <= d < 10 -> 0 <= d' < 10 -> digit_char d = digit_char d' -> d = d'.
Proof.
  intros Hd Hd' H. unfold digit_char in H.
  apply (f_equal nat_of_ascii) in H.
  rewrite !nat_ascii_embedding in H by lia. lia.
Qed.

Lemma map_digit_char_inj (ds ds' : list Z) :
  is_decimal ds -> is_decimal ds' ->
  List.map digit_char ds = List.map digit_char ds' -> ds = ds'.
Proof.
  intros Hds. revert ds'. induction Hds as [|d ds Hd _ IH]; intros ds' Hds' H.
  - destruct ds'; [reflexivity | discriminate].
  - destruct ds' as [|d' ds']; [discriminate |].
    inversion Hds' as [|? ? Hd' Hds'']; subst. simpl in H. injection H as Hc Hl.
    f_equal; [now apply digit_char_inj | now apply IH].
Qed.

Lemma is_decimal_firstn (k : nat) (ds : list Z) :
  is_decimal ds -> is_decimal (firstn k ds).
Proof.
  intros H. revert k. induction H as [|d ds Hd _ IH]; intros [|k]; simpl;
    try (constructor; fail).
  constructor; [assumption | apply IH].
Qed.

(** The last [k] characters of a digit string are its [k] low digits. *)
Lemma slice_digits (n : Z) (k : nat) :
  slice (digits n) (- Z.of_nat (S k))
  = of_chars (rev (List.map digit_char (firstn (S k) (lsd n)))).
Proof.
  unfold slice, digits.
  rewrite length_of_chars, chars_of_chars, length_rev, length_map.
  assert ((- Z.of_nat (S k) <? 0) = true) as -> by (apply Z.ltb_lt; lia).
  f_equal. set (l := lsd n). rewrite skipn_rev, length_map. f_equal.
  rewrite firstn_map. f_equal.
  destruct (Nat.le_gt_cases (List.length l) (S k)) as [Hle | Hgt].
  - rewrite (firstn_all2 (n := S k)) by assumption.
    apply firstn_all2. lia.
  - f_equal. lia.
Qed.

Lemma slice_digits_inj (n n' : Z) (k : nat) :
  0 <= n -> 0 <= n' ->
  slice (digits n) (- Z.of_nat (S k)) = slice (digits n') (- Z.of_nat (S k)) ->
  n mod 10 ^ Z.of_nat (S k) = n' mod 10 ^ Z.of_nat (S k).
Proof.
  intros Hn Hn' H. rewrite !slice_digits in H.
  apply of_chars_inj, rev_inj in H.
  apply map_digit_char_inj in H;
    try (apply is_decimal_firstn; apply lsd_decimal).
  apply (f_equal lsd_value) in H.
  rewrite !lsd_value_firstn in H by apply lsd_decimal.
  now rewrite !lsd_value_lsd in H by assumption.
Qed.

(** Two readings of the clock less than 10^10 ms apart give two ids. *)
Lemma new_id_distinct (t1 t2 : Z) :
  0 <= t1 -> 0 <= t2 -> t1 <> t2 -> Z.abs (t2 - t1) < 10000000000 ->
  Entry.new_id t1 <> Entry.new_id t2.
Proof.
  intros H1 H2 Hne Hwin Heq. unfold Entry.new_id, Z_toString in Heq.
  assert ((t1 <? 0) = false) as E1 by (apply Z.ltb_ge; lia).
  assert ((t2 <? 0) = false) as E2 by (apply Z.ltb_ge; lia).
  rewrite E1, E2 in Heq.
  apply (slice_digits_inj t1 t2 9 H1 H2) in Heq.
  change (10 ^ Z.of_nat 10) with 10000000000 in Heq.
  pose proof (Z.div_mod t1 10000000000 ltac:(lia)).
  pose proof (Z.div_mod t2 10000000000 ltac:(lia)).
  assert (t1 / 10000000000 = t2 / 10000000000) by lia.
  lia.
Qed.

End StrFacts.

(** * Properties of objects *)

Module JSFacts.

Lemma has_key_lookup (k : string) (ps : props) :
  JS.has_key k ps = match JS.lookup k ps with Some _ => true | None => false end.
Proof.
  induction ps as [|[k' v'] ps IH]; simpl; [reflexivity |].
  destruct (k' =? k)%string; [reflexivity | exact IH].
Qed.

Lemma lookup_update (k k' : string) (v : value) (ps : props) :
  JS.has_key k' ps = true ->
  JS.lookup k (JS.update k' v ps) = if (k' =? k)%string then Some v else JS.lookup k ps.
Proof.
  induction ps as [|[k0 v0] ps IH]; simpl; [discriminate |].
  destruct (k0 =? k')%string eqn:E0.
  - intros _. apply String.eqb_eq in E0. subst k0. simpl.
    destruct (k' =? k)%string; reflexivity.
  - intros H. simpl. destruct (k0 =? k)%string eqn:E1.
    + apply String.eqb_eq in E1. subst k0. rewrite String.eqb_sym in E0.
      now rewrite E0.
    + now apply IH.
Qed.

Lemma lookup_insert_index (k k' : string) (n : Z) (v : value) (ps : props) :
  JS.has_key k' ps = false ->
  JS.lookup k (JS.insert_index n k' v ps)
  = if (k' =? k)%string then Some v else JS.lookup k ps.
Proof.
  induction ps as [|[k0 v0] ps IH]; simpl.
  - intros _. destruct (k' =? k)%string; reflexivity.
  - destruct (k0 =? k')%string eqn:E0; [discriminate |]. intros H.
    assert (forall r, JS.lookup k ((k', v) :: (k0, v0) :: r)
                      = if (k' =? k)%string then Some v
                        else JS.lookup k ((k0, v0) :: r)) as Hfront
        by (intros r; reflexivity).
    destruct (JS.array_index k0) as [n0|]; [| apply Hfront].
    destruct (n0 <? n); [| apply Hfront].
    simpl. destruct (k0 =? k)%string eqn:E1.
    + apply String.eqb_eq in E1. subst k0. rewrite String.eqb_sym in E0.
      now rewrite E0.
    + now apply IH.
Qed.

Lemma lookup_app (k : string) (ps qs : props) :
  JS.lookup k (ps ++ qs)
  = match JS.lookup k ps with Some x => Some x | None => JS.lookup k qs end.
Proof.
  induction ps as [|[k0 v0] ps IH]; simpl; [reflexivity |].
  destruct (k0 =? k)%string; [reflexivity | exact IH].
Qed.

(** Reading after writing. *)
Lemma lookup_set (k k' : string) (v : value) (ps : props) :
  JS.lookup k (JS.set k' v ps) = if (k' =? k)%string then Some v else JS.lookup k ps.
Proof.
  unfold JS.set. destruct (JS.has_key k' ps) eqn:Hk.
  - now apply lookup_update.
  - destruct (JS.array_index k') as [n|].
    + now apply lookup_insert_index.
    + rewrite lookup_app. simpl.
      destruct (k' =? k)%string eqn:E.
      * apply String.eqb_eq in E. subst k'. rewrite has_key_lookup in Hk.
        destruct (JS.lookup k ps); [discriminate | reflexivity].
      * destruct (JS.lookup k ps); reflexivity.
Qed.

Lemma lookup_In (k : string) (x : value) (ps : props) :
  JS.lookup k ps = Some x -> In (k, x) ps.
Proof.
  induction ps as [|[k0 v0] ps IH]; simpl; [discriminate |].
  destruct (k0 =? k)%string eqn:E.
  - apply String.eqb_eq in E. subst k0. intros [= ->]. now left.
  - intros H. right. now apply IH.
Qed.

Lemma In_lookup (k : string) (x : value) (ps : props) :
  NoDup (List.map fst ps) -> In (k, x) ps -> JS.lookup k ps = Some x.
Proof.
  induction ps as [|[k0 v0] ps IH]; simpl; [contradiction |].
  intros Hnd Hin. inversion Hnd as [|? ? Hnotin Hnd']; subst.
  destruct Hin as [[= -> ->] | Hin].
  - now rewrite String.eqb_refl.
  - destruct (k0 =? k)%string eqn:E.
    + apply String.eqb_eq in E. subst k0. exfalso. apply Hnotin.
      apply (in_map fst) in Hin. exact Hin.
    + now apply IH.
Qed.

End JSFacts.

(** * The entries the constructors build *)

Module EntryFacts.

Import Entry.

Section Host.

Variable LocalTZA : Z -> Z.

(** The own properties of a [Running], in creation order. *)
Lemma Running_props (c : clock) (coordinates : value) (distance duration cadence : number) :
  Running LocalTZA c coordinates distance duration cadence
  = VObject
      [("date", VDate (Date_new c));
       ("id", VString (new_id (Date_now c)));
       ("coordinates", coordinates);
       ("distance", VNumber distance);
       ("duration", VNumber duration);
       ("type", VString "running");
       ("cadence", VNumber cadence);
       ("pace", VNumber (Num.div duration distance));
       ("description",
        VString (description "running" (Date_new c + LocalTZA (Date_new c))))].
Proof. reflexivity. Qed.

(** The own properties of a [Cycling], in creation order. *)
Lemma Cycling_props (c : clock) (coordinates : value) (distance duration elevation : number) :
  Cycling LocalTZA c coordinates distance duration elevation
  = VObject
      [("date", VDate (Date_new c));
       ("id", VString (new_id (Date_now c)));
       ("coordinates", coordinates);
       ("distance", VNumber distance);
       ("duration", VNumber duration);
       ("type", VString "cycling");
       ("elevation", VNumber elevation);
       ("speed", VNumber (Num.div distance (Num.div duration Num.sixty)));
       ("description",
        VString (description "cycling" (Date_new c + LocalTZA (Date_new c))))].
Proof. reflexivity. Qed.

End Host.

End EntryFacts.

(** * Running a method *)

Module MonadFacts.

Import App Log.

Lemma bind_Returned {A B : Type} (m : M A) (k : A -> M B) (st st' : state) (a : A) :
  m st = Returned a st' -> bind m k st = k a st'.
Proof. intros H. unfold bind. now rewrite H. Qed.

Lemma bind_Thrown {A B : Type} (m : M A) (k : A -> M B) (st st' : state) (e : error) :
  m st = Thrown e st' -> bind m k st = Thrown e st'.
Proof. intros H. unfold bind. now rewrite H. Qed.

Lemma bind_read {A B : Type} (f : state -> A) (k : A -> M B) (st : state) :
  bind (read f) k st = k (f st) st.
Proof. reflexivity. Qed.

Lemma bind_write {B : Type} (f : state -> state) (k : unit -> M B) (st : state) :
  bind (write f) k st = k tt (f st).
Proof. reflexivity. Qed.

Lemma bind_ret {A B : Type} (a : A) (k : A -> M B) (st : state) :
  bind (ret a) k st = k a st.
Proof. reflexivity. Qed.

Lemma bind_throw {A B : Type} (e : error) (k : A -> M B) (st : state) :
  bind (throw e) k st = Thrown e st.
Proof. reflexivity. Qed.

Lemma push_array (w : value) (st : state) (l : list value) :
  workouts st = VArray l ->
  push w st = Returned tt (with_workouts (VArray (l ++ [w])) st).
Proof. intros H. unfold push, bind, read. now rewrite H. Qed.

Lemma push_other (w : value) (st : state) :
  is_array (workouts st) = false -> push w st = Thrown TypeError st.
Proof.
  intros H. unfold push, bind, read. now destruct (workouts st).
Qed.

Lemma hideForm_run (st : state) :
  _hideForm st = Returned tt (with_form (cleared (form st)) st).
Proof. reflexivity. Qed.

Lemma setLocalStorage_run (st : state) :
  _setLocalStorage st
  = Returned tt (with_localStorage (Some (snapshot (workouts st))) st).
Proof. reflexivity. Qed.

Lemma renderWorkout_cases (w : value) (st : state) :
  _renderWorkout w st = Returned tt (with_list_items (w :: list_items st) st)
  \/ _renderWorkout w st = Thrown TypeError st.
Proof.
  unfold _renderWorkout, bind, prop.
  destruct (JS.get w "type") as [ty|]; [| now right]. cbn [ret].
  destruct (JS.is_string ty "running").
  - destruct (JS.get w "pace") as [[]|]; cbn; try (now right).
    destruct (JS.is_string ty "cycling"); cbn; [| now left].
    destruct (JS.get w "speed") as [[]|]; cbn; (now right) || (now left).
  - cbn. destruct (JS.is_string ty "cycling"); cbn; [| now left].
    destruct (JS.get w "speed") as [[]|]; cbn; (now right) || (now left).
Qed.

Lemma renderWorkout_defined (w : value) (st st' : state) :
  _renderWorkout w st = Returned tt st' -> defined w = true.
Proof.
  unfold _renderWorkout, bind, prop. now destruct w.
Qed.

Lemma renderWorkoutMarker_cases (w : value) (st : state) (lm : leaflet) :
  map st = Some lm ->
  _renderWorkoutMarker w st
  = Returned tt (with_map (Some {| center := center lm; zoom := zoom lm;
                                   markers := w :: markers lm |}) st)
  \/ _renderWorkoutMarker w st = Thrown TypeError st.
Proof.
  intros Hm. unfold _renderWorkoutMarker, bind, prop, read.
  destruct w; cbn; rewrite ?Hm; cbn; (now left) || (now right).
Qed.

Lemma renderWorkoutMarker_no_map (w : value) (st : state) :
  map st = None -> _renderWorkoutMarker w st = Thrown TypeError st.
Proof.
  intros Hm. unfold _renderWorkoutMarker, bind, prop, read.
  destruct (JS.get w "coordinates"); cbn; [now rewrite Hm | reflexivity].
Qed.

End MonadFacts.

(** * What a submission does *)

Module AppFacts.

Import App Log MonadFacts.

Section Host.

Variable Number : string -> number.
Variable LocalTZA : Z -> Z.

Abbreviation distance_of := (distance_of Number).
Abbreviation duration_of := (duration_of Number).
Abbreviation cadence_of := (cadence_of Number).
Abbreviation elevation_of := (elevation_of Number).
Abbreviation running_accepted := (running_accepted Number).
Abbreviation cycling_accepted := (cycling_accepted Number).

Lemma running_test (st : state) :
  negb (Num.isFinite (Number (inputDistance (form st))))
  || negb (Num.isFinite (Number (inputDuration (form st))))
  || negb (Num.isFinite (Number (inputCadence (form st))))
  || negb (allPositive [Number (inputDistance (form st));
                        Number (inputDuration (form st));
                        Number (inputCadence (form st))])
  = negb (running_accepted st).
Proof.
  unfold Log.running_accepted, Log.distance_of, Log.duration_of, Log.cadence_of.
  destruct (Num.isFinite (Number (inputDistance (form st)))),
    (Num.isFinite (Number (inputDuration (form st)))),
    (Num.isFinite (Number (inputCadence (form st)))),
    (allPositive _); reflexivity.
Qed.

Lemma cycling_test (st : state) :
  negb (validInputs [Number (inputDistance (form st));
                     Number (inputDuration (form st));
                     Number (inputElevation (form st))])
  || negb (allPositive [Number (inputDistance (form st));
                        Number (inputDuration (form st))])
  = negb (cycling_accepted st).
Proof.
  unfold Log.cycling_accepted, Log.distance_of, Log.duration_of, Log.elevation_of.
  now rewrite negb_andb.
Qed.

(** Without a map click the handler fails on [this.#mapEvent.latlng]. *)
Lemma newWorkout_no_click (c : Entry.clock) (st : state) :
  mapEvent st = None ->
  _newWorkout Number LocalTZA c st = Thrown TypeError st.
Proof.
  intros Hev. unfold _newWorkout. rewrite !bind_read, Hev. reflexivity.
Qed.

Lemma newWorkout_running_refused (c : Entry.clock) (st : state) (ll : latlng) :
  mapEvent st = Some ll ->
  inputType (form st) = "running"%string ->
  running_accepted st = false ->
  _newWorkout Number LocalTZA c st = Returned tt (refused st).
Proof.
  intros Hev Hty Hno. unfold _newWorkout, bind, read.
  rewrite Hev, Hty. cbn [String.eqb Ascii.eqb Bool.eqb].
  rewrite running_test, Hno. reflexivity.
Qed.

Lemma newWorkout_cycling_refused (c : Entry.clock) (st : state) (ll : latlng) :
  mapEvent st = Some ll ->
  inputType (form st) = "cycling"%string ->
  cycling_accepted st = false ->
  _newWorkout Number LocalTZA c st = Returned tt (refused st).
Proof.
  intros Hev Hty Hno. unfold _newWorkout, bind, read.
  rewrite Hev, Hty. cbn [String.eqb Ascii.eqb Bool.eqb ret].
  rewrite cycling_test, Hno. reflexivity.
Qed.

Lemma newWorkout_running_logged (c : Entry.clock) (st : state) (ll : latlng)
  (lm : leaflet) (l : list value) :
  mapEvent st = Some ll -> map st = Some lm -> workouts st = VArray l ->
  inputType (form st) = "running"%string ->
  running_accepted st = true ->
  _newWorkout Number LocalTZA c st
  = Returned tt
      (logged (Entry.Running LocalTZA c (coordinates_of ll) (distance_of st)
                 (duration_of st) (cadence_of st)) l lm st).
Proof.
  intros Hev Hmap Hws Hty Hok. unfold _newWorkout, bind, read.
  rewrite Hev, Hty. cbn [String.eqb Ascii.eqb Bool.eqb ret].
  rewrite running_test, Hok. cbn [negb].
  destruct st as [m e ws f li al ls lis loc]. simpl in Hev, Hmap, Hws. subst.
  reflexivity.
Qed.

Lemma newWorkout_cycling_logged (c : Entry.clock) (st : state) (ll : latlng)
  (lm : leaflet) (l : list value) :
  mapEvent st = Some ll -> map st = Some lm -> workouts st = VArray l ->
  inputType (form st) = "cycling"%string ->
  cycling_accepted st = true ->
  _newWorkout Number LocalTZA c st
  = Returned tt
      (logged (Entry.Cycling LocalTZA c (coordinates_of ll) (distance_of st)
                 (duration_of st) (elevation_of st)) l lm st).
Proof.
  intros Hev Hmap Hws Hty Hok. unfold _newWorkout, bind, read.
  rewrite Hev, Hty. cbn [String.eqb Ascii.eqb Bool.eqb ret].
  rewrite cycling_test, Hok. cbn [negb].
  destruct st as [m e ws f li al ls lis loc]. simpl in Hev, Hmap, Hws. subst.
  reflexivity.
Qed.

(** A kind that is neither: no test, no entry, [undefined] is pushed and
    the list item cannot be built. *)
Lemma newWorkout_other_kind (c : Entry.clock) (st : state) (ll : latlng)
  (l : list value) :
  mapEvent st = Some ll -> workouts st = VArray l ->
  inputType (form st) <> "running"%string ->
  inputType (form st) <> "cycling"%string ->
  _newWorkout Number LocalTZA c st
  = Thrown TypeError (with_workouts (VArray (l ++ [VUndefined])) st).
Proof.
  intros Hev Hws Hr Hc. unfold _newWorkout, bind, read.
  apply String.eqb_neq in Hr, Hc. rewrite Hev, Hr, Hc.
  destruct st as [m e ws f li al ls lis loc]. simpl in Hev, Hws. subst.
  reflexivity.
Qed.

End Host.

End AppFacts.

(** * What every session keeps *)

Module SessionFacts.

Import App Log MonadFacts.

(** Rendering list items writes the list and nothing else. *)
Lemma forEach_renderWorkout_frame (l : list value) (st : state) :
  exists li, final_state (forEach _renderWorkout l st) = with_list_items li st.
Proof.
  revert st. induction l as [|w l IH]; intros st.
  - exists (list_items st). now destruct st.
  - cbn [forEach]. unfold bind.
    destruct (renderWorkout_cases w st) as [-> | ->].
    + destruct (IH (with_list_items (w :: list_items st) st)) as [li Hli].
      exists li. rewrite Hli. reflexivity.
    + exists (list_items st). now destruct st.
Qed.

(** Rendering markers writes the markers and nothing else. *)
Lemma forEach_renderWorkoutMarker_frame (l : list value) (st : state) (lm : leaflet) :
  map st = Some lm ->
  exists mk,
    final_state (forEach _renderWorkoutMarker l st)
    = with_map (Some {| center := center lm; zoom := zoom lm; markers := mk |}) st.
Proof.
  revert st lm. induction l as [|w l IH]; intros st lm Hm.
  - exists (markers lm). destruct st, lm. simpl in *. now subst.
  - cbn [forEach]. unfold bind.
    destruct (renderWorkoutMarker_cases w st lm Hm) as [-> | ->].
    + edestruct (IH (with_map (Some {| center := center lm; zoom := zoom lm;
                                       markers := w :: markers lm |}) st))
        as [mk Hmk]; [reflexivity |].
      exists mk. rewrite Hmk. reflexivity.
    + exists (markers lm). destruct st, lm. simpl in *. now subst.
Qed.

Lemma consistent_with_list_items (li : list value) (st : state) :
  consistent st -> consistent (with_list_items li st).
Proof. intros H. exact H. Qed.

Lemma consistent_with_alerts (al : list string) (st : state) :
  consistent st -> consistent (with_alerts al st).
Proof. intros H. exact H. Qed.

Lemma consistent_with_form (f : form_fields) (st : state) :
  consistent st -> consistent (with_form f st).
Proof. intros H. exact H. Qed.

Lemma consistent_with_locating (b : bool) (st : state) :
  consistent st -> consistent (with_locating b st).
Proof. intros H. exact H. Qed.

Lemma consistent_with_map (lm : leaflet) (st : state) :
  consistent st -> consistent (with_map (Some lm) st).
Proof. intros [H1 H2]. split; [exact H1 | discriminate]. Qed.

(** What [_getLocalStorage] can have written: nothing, or the log and
    list items. *)
Lemma getLocalStorage_frame (st : state) :
  exists data li,
    final_state (_getLocalStorage st) = with_list_items li (with_workouts data st)
    /\ (data = workouts st \/ forall a st', _getLocalStorage st = Returned a st' ->
                                             is_array data = true).
Proof.
  assert (st = with_list_items (list_items st) (with_workouts (workouts st) st)) as Hst
      by now destruct st.
  unfold _getLocalStorage, bind, read.
  destruct (localStorage st) as [[j|]|]; cbn;
    try (exists (workouts st), (list_items st); split; [exact Hst | now left]).
  destruct (JS.truthy (JSON.parse j)); cbn;
    try (exists (workouts st), (list_items st); split; [exact Hst | now left]).
  destruct (JSON.parse j) as [| | | | | |l|] eqn:Hdata; cbn;
    try (eexists _, (list_items st); split;
         [reflexivity | right; intros a st' [=]]).
  destruct (forEach_renderWorkout_frame l (with_workouts (VArray l) st)) as [li Hli].
  exists (VArray l), li. split; [rewrite Hli; reflexivity | right; reflexivity].
Qed.

Lemma consistent_load (geolocation : bool) (f : form_fields) (stored : option slot) :
  consistent (load geolocation f stored).
Proof.
  unfold load, constructor, bind.
  assert (forall st, mapEvent st = None -> listening st = false ->
                     workouts st = VArray [] ->
                     consistent (final_state
                                   match _getLocalStorage st with
                                   | Returned _ st' => write (with_listening true) st'
                                   | Thrown e st' => Thrown e st'
                                   end)) as Hmain.
  { intros st Hev Hl Hws.
    destruct (getLocalStorage_frame st) as (data & li & Hfinal & Hdata).
    destruct (_getLocalStorage st) as [a st'|e st'] eqn:E; cbn in *; subst st';
      split; cbn; try congruence.
    intros _. destruct Hdata as [-> | Hdata]; [now rewrite Hws | eauto]. }
  destruct geolocation;
    [apply (Hmain (with_locating true (page f stored)))
    | apply (Hmain (page f stored))]; reflexivity.
Qed.

Lemma by_id_run (id : string) (work : value) (st : state) :
  defined work = true -> (Log.by_id id) work st = Returned (has_id id work) st.
Proof.
  intros H. unfold bind, prop, has_id.
  destruct work; try discriminate; reflexivity.
Qed.

Lemma by_id_undefined (id : string) (work : value) (st : state) :
  defined work = false -> (Log.by_id id) work st = Thrown TypeError st.
Proof.
  intros H. unfold bind, prop. destruct work; try discriminate; reflexivity.
Qed.

(** The search returns the first entry with the id, when it meets nothing
    undefined on the way. *)
Lemma find_first (id : string) (l1 l2 : list value) (e : value) (st : state) :
  Forall (fun x => defined x = true /\ has_id id x = false) l1 ->
  has_id id e = true ->
  find ((Log.by_id id)) (l1 ++ e :: l2) st = Returned e st.
Proof.
  intros Hl1 He. induction Hl1 as [|x l1 [Hx Hno] _ IH].
  - assert (defined e = true) as Hd by (unfold has_id in He; now destruct e).
    cbn [app find]. rewrite (bind_Returned _ _ _ _ _ (by_id_run id e st Hd)).
    now rewrite He.
  - cbn [app find]. rewrite (bind_Returned _ _ _ _ _ (by_id_run id x st Hx)).
    now rewrite Hno.
Qed.

(** With no entry of that id, the search returns [undefined] or fails. *)
Lemma find_none (id : string) (l : list value) (st : state) :
  Forall (fun x => has_id id x = false) l ->
  find ((Log.by_id id)) l st = Returned VUndefined st
  \/ find ((Log.by_id id)) l st = Thrown TypeError st.
Proof.
  intros Hl. induction Hl as [|x l Hno _ IH]; [now left |].
  cbn [find]. destruct (defined x) eqn:Hx.
  - rewrite (bind_Returned _ _ _ _ _ (by_id_run id x st Hx)). now rewrite Hno.
  - right. now rewrite (bind_Thrown _ _ _ _ _ (by_id_undefined id x st Hx)).
Qed.

Lemma find_frame (id : string) (l : list value) (st : state) :
  final_state (find ((Log.by_id id)) l st) = st.
Proof.
  induction l as [|x l IH]; [reflexivity |].
  cbn [find]. destruct (defined x) eqn:Hx.
  - rewrite (bind_Returned _ _ _ _ _ (by_id_run id x st Hx)).
    destruct (has_id id x); [reflexivity | exact IH].
  - now rewrite (bind_Thrown _ _ _ _ _ (by_id_undefined id x st Hx)).
Qed.

(** [_centerMapOnPopup] writes the view of an existing map, or nothing. *)
Lemma centerMapOnPopup_cases (target : option string) (st : state) :
  final_state (_centerMapOnPopup target st) = st
  \/ exists lm coordinates,
      map st = Some lm
      /\ _centerMapOnPopup target st
         = Returned tt (with_map (Some {| center := coordinates; zoom := mapZoomLevel;
                                          markers := markers lm |}) st).
Proof.
  destruct target as [id|]; [| now left]. unfold _centerMapOnPopup.
  rewrite bind_read.
  destruct (workouts st) as [| | | | | |l|]; cbn [elements];
    try (rewrite bind_throw; now left).
  rewrite bind_ret.
  pose proof (find_frame id l st) as Hf.
  destruct (find ((Log.by_id id)) l st) as [w st'|e st'] eqn:E; cbn in Hf; subst st';
    [| rewrite (bind_Thrown _ _ _ _ _ E); now left].
  rewrite (bind_Returned _ _ _ _ _ E), bind_read.
  destruct (map st) as [lm|] eqn:Hm; [| now left].
  unfold prop. destruct (JS.get w "coordinates") as [coordinates|];
    [| rewrite bind_throw; now left].
  rewrite bind_ret. right. exists lm, coordinates. split; reflexivity.
Qed.

(** [_loadMap] leaves a map. *)
Lemma loadMap_frame (latitude longitude : number) (st : state) :
  exists lm, final_state (_loadMap latitude longitude st) = with_map (Some lm) st.
Proof.
  unfold _loadMap. unfold bind at 1, write at 1, bind at 1, read at 1, bind at 1.
  set (lm0 := {| center := _; zoom := _; markers := _ |}).
  assert (map (with_map (Some lm0) st) = Some lm0) as Hm by reflexivity.
  destruct (workouts (with_map (Some lm0) st)) as [| | | | | |l|];
    cbn [elements]; try (now exists lm0).
  unfold ret.
  destruct (forEach_renderWorkoutMarker_frame l _ lm0 Hm) as [mk Hmk].
  rewrite Hmk. eexists. reflexivity.
Qed.

Section Host.

Variable Number : string -> number.
Variable LocalTZA : Z -> Z.

(** The last part of [_newWorkout]: when it returns, the entry is
    logged. *)
Lemma log_returned (w : value) (st st' : state) :
  (push w ;;; _renderWorkout w ;;; _renderWorkoutMarker w ;;; _hideForm ;;;
   _setLocalStorage) st = Returned tt st' ->
  exists l lm,
    workouts st = VArray l /\ map st = Some lm /\ defined w = true
    /\ st' = logged w l lm st.
Proof.
  intros H.
  destruct (is_array (workouts st)) eqn:Harr;
    [| rewrite (bind_Thrown _ _ _ _ _ (push_other w st Harr)) in H; discriminate].
  destruct (workouts st) as [| | | | | |l|] eqn:Hws; try discriminate.
  rewrite (bind_Returned _ _ _ _ _ (push_array w st l Hws)) in H.
  destruct (renderWorkout_cases w (with_workouts (VArray (l ++ [w])) st)) as [E | E];
    [| rewrite (bind_Thrown _ _ _ _ _ E) in H; discriminate].
  rewrite (bind_Returned _ _ _ _ _ E) in H.
  apply renderWorkout_defined in E.
  destruct (map st) as [lm|] eqn:Hm.
  - destruct (renderWorkoutMarker_cases w
                (with_list_items (w :: list_items st)
                   (with_workouts (VArray (l ++ [w])) st)) lm Hm) as [E' | E'];
      [| rewrite (bind_Thrown _ _ _ _ _ E') in H; discriminate].
    rewrite (bind_Returned _ _ _ _ _ E') in H.
    exists l, lm. repeat split; try assumption.
    cbn in H. injection H as <-. destruct st. cbn in *. subst. reflexivity.
  - rewrite (bind_Thrown _ _ _ _ _
               (renderWorkoutMarker_no_map w
                  (with_list_items (w :: list_items st)
                     (with_workouts (VArray (l ++ [w])) st)) Hm)) in H.
    discriminate.
Qed.

(** The last part of [_newWorkout] keeps the state consistent, however it
    ends. *)
Lemma log_consistent (w : value) (st : state) :
  consistent st ->
  consistent (final_state
                ((push w ;;; _renderWorkout w ;;; _renderWorkoutMarker w ;;;
                  _hideForm ;;; _setLocalStorage) st)).
Proof.
  intros Hst.
  destruct (is_array (workouts st)) eqn:Harr;
    [| now rewrite (bind_Thrown _ _ _ _ _ (push_other w st Harr))].
  destruct (workouts st) as [| | | | | |l|] eqn:Hws; try discriminate.
  rewrite (bind_Returned _ _ _ _ _ (push_array w st l Hws)).
  set (st1 := with_workouts (VArray (l ++ [w])) st).
  assert (consistent st1) as H1 by (destruct Hst; split; cbn; auto).
  destruct (renderWorkout_cases w st1) as [E | E];
    [| now rewrite (bind_Thrown _ _ _ _ _ E)].
  rewrite (bind_Returned _ _ _ _ _ E).
  set (st2 := with_list_items (w :: list_items st1) st1).
  assert (consistent st2) as H2 by exact H1.
  destruct (map st2) as [lm|] eqn:Hm.
  - destruct (renderWorkoutMarker_cases w st2 lm Hm) as [E' | E'];
      [| now rewrite (bind_Thrown _ _ _ _ _ E')].
    rewrite (bind_Returned _ _ _ _ _ E'). cbn.
    destruct H2 as [Ha Hb]. split; cbn; [exact Ha | discriminate].
  - now rewrite (bind_Thrown _ _ _ _ _ (renderWorkoutMarker_no_map w st2 Hm)).
Qed.

Lemma newWorkout_consistent (c : Entry.clock) (st : state) :
  consistent st -> consistent (final_state (_newWorkout Number LocalTZA c st)).
Proof.
  intros Hst. unfold _newWorkout. unfold bind at 1. unfold read at 1.
  unfold bind at 1. unfold read at 1.
  destruct (mapEvent st) as [ll|]; [| exact Hst].
  unfold bind at 1.
  destruct (inputType (form st) =? "running")%string.
  - destruct (_ || _); cbn -[bind push _renderWorkout _renderWorkoutMarker
                                _hideForm _setLocalStorage]; [exact Hst |].
    unfold bind at 1.
    destruct (inputType (form st) =? "cycling")%string.
    + destruct (_ || _); cbn -[bind push _renderWorkout _renderWorkoutMarker
                                  _hideForm _setLocalStorage];
        [exact Hst | now apply log_consistent].
    + cbn -[bind push _renderWorkout _renderWorkoutMarker _hideForm _setLocalStorage].
      now apply log_consistent.
  - cbn -[bind push _renderWorkout _renderWorkoutMarker _hideForm _setLocalStorage].
    unfold bind at 1.
    destruct (inputType (form st) =? "cycling")%string.
    + destruct (_ || _); cbn -[bind push _renderWorkout _renderWorkoutMarker
                                  _hideForm _setLocalStorage];
        [exact Hst | now apply log_consistent].
    + cbn -[bind push _renderWorkout _renderWorkoutMarker _hideForm _setLocalStorage].
      now apply log_consistent.
Qed.

(** A submission that returns was refused, or logged an entry it built. *)
Lemma newWorkout_returned (c : Entry.clock) (st st' : state) :
  _newWorkout Number LocalTZA c st = Returned tt st' ->
  st' = refused st
  \/ exists ll l lm w,
      mapEvent st = Some ll /\ workouts st = VArray l /\ map st = Some lm
      /\ st' = logged w l lm st
      /\ (w = Entry.Running LocalTZA c (coordinates_of ll) (distance_of Number st)
                 (duration_of Number st) (cadence_of Number st)
          \/ w = Entry.Cycling LocalTZA c (coordinates_of ll) (distance_of Number st)
                    (duration_of Number st) (elevation_of Number st)).
Proof.
  unfold _newWorkout. rewrite !bind_read.
  destruct (mapEvent st) as [ll|] eqn:Hev; [| discriminate].
  unfold bind at 1.
  destruct (inputType (form st) =? "running")%string eqn:Er.
  - destruct (_ || _); cbn -[bind push _renderWorkout _renderWorkoutMarker
                                _hideForm _setLocalStorage].
    + intros [= <-]. now left.
    + apply String.eqb_eq in Er. rewrite Er.
      cbn -[bind push _renderWorkout _renderWorkoutMarker _hideForm _setLocalStorage].
      rewrite bind_ret. intros H.
      apply log_returned in H as (l & lm & Hws & Hm & _ & ->).
      right. exists ll, l, lm. eexists. repeat split; try eassumption. now left.
  - cbn -[bind push _renderWorkout _renderWorkoutMarker _hideForm _setLocalStorage].
    unfold bind at 1.
    destruct (inputType (form st) =? "cycling")%string.
    + destruct (_ || _); cbn -[bind push _renderWorkout _renderWorkoutMarker
                                  _hideForm _setLocalStorage].
      * intros [= <-]. now left.
      * intros H. apply log_returned in H as (l & lm & Hws & Hm & _ & ->).
        right. exists ll, l, lm. eexists. repeat split; try eassumption. now right.
    + cbn -[bind push _renderWorkout _renderWorkoutMarker _hideForm _setLocalStorage].
      intros H. apply log_returned in H as (l & lm & _ & _ & Hd & _). discriminate.
Qed.

Lemma dispatch_consistent (ev : event) (st : state) :
  consistent st -> consistent (dispatch Number LocalTZA ev st).
Proof.
  intros Hst. destruct ev as [latitude longitude| |ll|which text|c|target];
    unfold dispatch.
  - destruct (locating st); [| exact Hst].
    destruct (loadMap_frame latitude longitude (with_locating false st)) as [lm ->].
    now apply consistent_with_map.
  - destruct (locating st); exact Hst.
  - destruct (map st) as [lm|] eqn:Hm; [| exact Hst].
    destruct Hst as [Ha Hb]. split; cbn; [exact Ha | now rewrite Hm].
  - exact Hst.
  - destruct (listening st); [now apply newWorkout_consistent | exact Hst].
  - destruct (listening st); [| exact Hst].
    destruct (centerMapOnPopup_cases target st) as [-> | (lm & co & _ & ->)];
      [exact Hst | now apply consistent_with_map].
Qed.

(** Every state of every session is consistent. *)
Lemma session_consistent (evs : list event) (st : state) :
  consistent st -> consistent (session Number LocalTZA evs st).
Proof.
  revert st. induction evs as [|ev evs IH]; intros st Hst; [exact Hst |].
  cbn [session fold_left]. apply IH. now apply dispatch_consistent.
Qed.

End Host.

End SessionFacts.

(** * Writing a snapshot and reading it back *)

Module JSONFacts.

Import JSON Log JSFacts Snapshot.

Lemma plain_array (l : list value) : plain (VArray l) <-> Forall plain l.
Proof.
  induction l as [|x l IH]; cbn.
  - split; [constructor | trivial].
  - split.
    + intros [Hx Hl]. constructor; [exact Hx | now apply IH].
    + intros H. inversion H; subst. split; [assumption | now apply IH].
Qed.

Lemma plain_object (ps : props) :
  plain (VObject ps)
  <-> NoDup (List.map fst ps)
      /\ (forall k, In k (List.map fst ps) -> JS.array_index k = None)
      /\ Forall (fun kv => plain (snd kv)) ps.
Proof.
  cbn. split; intros (Hnd & Hix & Hall); repeat split; try assumption;
    clear Hnd Hix.
  - induction ps as [|kv ps IH]; [constructor |].
    destruct Hall as [Hx Hl]. constructor; [exact Hx | now apply IH].
  - induction Hall as [|kv ps Hx _ IH]; [trivial | now split].
Qed.

Lemma stringify_array (l : list value) :
  stringify (VArray l) = Some (JArray (List.map item l)).
Proof. reflexivity. Qed.

Lemma stringify_object (ps : props) :
  stringify (VObject ps) = Some (JObject (List.flat_map member ps)).
Proof. reflexivity. Qed.

Lemma parse_object (ms : list (string * json)) :
  parse (JObject ms) = VObject (build ms []).
Proof. reflexivity. Qed.

Lemma lookup_build (k : string) (ms : list (string * json)) (acc : props) :
  JS.lookup k (build ms acc)
  = match latest k ms with
    | Some j => Some (parse j)
    | None => JS.lookup k acc
    end.
Proof.
  revert acc. induction ms as [|[k' j] ms IH]; intros acc; [reflexivity |].
  cbn [build fold_left latest fst snd]. fold (build ms (JS.set k' (parse j) acc)).
  rewrite IH. destruct (latest k ms); [reflexivity |].
  rewrite lookup_set. destruct (k' =? k)%string; reflexivity.
Qed.

Lemma latest_not_in (k : string) (ms : list (string * json)) :
  ~ In k (List.map fst ms) -> latest k ms = None.
Proof.
  induction ms as [|[k' j] ms IH]; cbn; [reflexivity |].
  intros H. rewrite IH by tauto.
  destruct (k' =? k)%string eqn:E; [| reflexivity].
  apply String.eqb_eq in E. tauto.
Qed.

Lemma latest_In (k : string) (j : json) (ms : list (string * json)) :
  NoDup (List.map fst ms) -> In (k, j) ms -> latest k ms = Some j.
Proof.
  induction ms as [|[k' j'] ms IH]; cbn; [contradiction |].
  intros Hnd [[= -> ->] | Hin]; inversion Hnd as [|? ? Hnotin Hnd']; subst.
  - rewrite latest_not_in by assumption. now rewrite String.eqb_refl.
  - now rewrite (IH Hnd' Hin).
Qed.

Lemma member_keys (ps : props) (k : string) :
  In k (List.map fst (List.flat_map member ps)) -> In k (List.map fst ps).
Proof.
  induction ps as [|[k' v] ps IH]; cbn; [trivial |].
  unfold member at 1. cbn. destruct (stringify v); cbn; intuition.
Qed.

(** The member kept for a name is the one its property was written as. *)
Lemma latest_members (k : string) (ps : props) :
  NoDup (List.map fst ps) ->
  latest k (List.flat_map member ps)
  = match JS.lookup k ps with
    | Some x => stringify x
    | None => None
    end.
Proof.
  induction ps as [|[k' v] ps IH]; cbn; [reflexivity |].
  intros Hnd. inversion Hnd as [|? ? Hnotin Hnd']; subst.
  destruct (k' =? k)%string eqn:E.
  - apply String.eqb_eq in E. subst k'.
    assert (latest k (List.flat_map member ps) = None) as Hrest
        by (apply latest_not_in; intros H; apply Hnotin; now apply member_keys).
    unfold member at 1. cbn. destruct (stringify v) as [j|]; cbn.
    + now rewrite Hrest, String.eqb_refl.
    + exact Hrest.
  - unfold member at 1. cbn. destruct (stringify v) as [j|]; cbn.
    + rewrite (IH Hnd'), E. now destruct (JS.lookup k ps) as [x|]; [destruct (stringify x) |].
    + exact (IH Hnd').
Qed.

(** A property of a record, written and read back. *)
Lemma lookup_roundtrip (k : string) (ps : props) :
  NoDup (List.map fst ps) ->
  JS.lookup k (build (List.flat_map member ps) [])
  = match JS.lookup k ps with
    | Some x => option_map parse (stringify x)
    | None => None
    end.
Proof.
  intros Hnd. rewrite lookup_build, (latest_members k ps Hnd).
  destruct (JS.lookup k ps) as [x|]; [| reflexivity].
  now destruct (stringify x).
Qed.

Lemma has_key_app (k : string) (ps qs : props) :
  JS.has_key k (ps ++ qs) = JS.has_key k ps || JS.has_key k qs.
Proof.
  induction ps as [|[k' v] ps IH]; cbn; [reflexivity |].
  destruct (k' =? k)%string; [reflexivity | exact IH].
Qed.

Lemma has_key_false (k : string) (ps : props) :
  ~ In k (List.map fst ps) -> JS.has_key k ps = false.
Proof.
  induction ps as [|[k' v] ps IH]; cbn; [reflexivity |].
  intros H. destruct (k' =? k)%string eqn:E.
  - apply String.eqb_eq in E. tauto.
  - apply IH. tauto.
Qed.

(** Members of distinct names, none an index, are appended in order. *)
Lemma build_fresh (ms : list (string * json)) (acc : props) :
  NoDup (List.map fst ms) ->
  (forall k, In k (List.map fst ms) -> JS.array_index k = None) ->
  (forall k, In k (List.map fst ms) -> ~ In k (List.map fst acc)) ->
  build ms acc = acc ++ List.map (fun kj => (fst kj, parse (snd kj))) ms.
Proof.
  revert acc. induction ms as [|[k j] ms IH]; intros acc Hnd Hix Hfresh.
  - cbn. now rewrite app_nil_r.
  - inversion Hnd as [|? ? Hnotin Hnd']; subst.
    cbn [build fold_left fst snd List.map].
    fold (build ms (JS.set k (parse j) acc)).
    assert (JS.set k (parse j) acc = acc ++ [(k, parse j)]) as ->.
    { unfold JS.set. rewrite has_key_false by (apply Hfresh; now left).
      now rewrite (Hix k) by now left. }
    rewrite IH.
    + now rewrite <- app_assoc.
    + exact Hnd'.
    + intros k' Hk'. apply Hix. now right.
    + intros k' Hk' Hin. rewrite map_app, in_app_iff in Hin. cbn in Hin.
      destruct Hin as [Hin | [-> | []]].
      * apply (Hfresh k'); [now right | exact Hin].
      * now apply Hnotin.
Qed.

(** A plain value is read back as it was. *)
Lemma plain_roundtrip (v : value) :
  plain v -> exists j, stringify v = Some j /\ parse j = v.
Proof.
  induction v as [| |b|x|s|t|l IH|ps IH] using value_induction; intros Hv.
  - destruct Hv.
  - now exists JNull.
  - now exists (JBool b).
  - destruct Hv as [Hfin Hnz]. exists (JNumber x). cbn. rewrite Hfin.
    split; [| reflexivity]. destruct x as [[]| | |]; try reflexivity.
    now destruct Hnz.
  - now exists (JString s).
  - destruct Hv.
  - rewrite plain_array in Hv. exists (JArray (List.map item l)).
    split; [reflexivity |]. cbn [parse]. f_equal.
    rewrite map_map. rewrite <- (map_id l) at 2. apply map_ext_in.
    intros x Hx. rewrite Forall_forall in IH, Hv.
    destruct (IH x Hx (Hv x Hx)) as (j & Hj & Hp). unfold item. now rewrite Hj.
  - rewrite plain_object in Hv. destruct Hv as (Hnd & Hix & Hall).
    exists (JObject (List.flat_map member ps)). split; [reflexivity |].
    rewrite parse_object. f_equal.
    assert (List.map (fun kj => (fst kj, parse (snd kj))) (List.flat_map member ps) = ps
            /\ List.map fst (List.flat_map member ps) = List.map fst ps) as [Hvals Hkeys].
    { clear Hnd Hix. induction ps as [|[k x] ps IHps]; [now split |].
      inversion IH as [|? ? IHx IHrest]; subst.
      inversion Hall as [|? ? Hx Hrest]; subst.
      destruct (IHps IHrest Hrest) as [H1 H2].
      destruct (IHx Hx) as (j & Hj & Hp). cbn in Hj, Hp.
      cbn [List.flat_map]. unfold member at 1. unfold member at 2.
      cbn [fst snd]. rewrite Hj. cbn [app List.map fst snd].
      rewrite H1, H2, Hp. now split. }
    rewrite build_fresh.
    + cbn [app]. exact Hvals.
    + now rewrite Hkeys.
    + intros k Hk. apply Hix. now rewrite <- Hkeys.
    + intros k _ [].
Qed.

End JSONFacts.

(** * The properties of the specification *)

Import App Log.

Section Host.

Variable Number : string -> number.
Variable LocalTZA : Z -> Z.

Lemma reachable_consistent (st : state) :
  reachable Number LocalTZA st -> consistent st.
Proof.
  intros (geolocation & f & stored & evs & ->).
  apply SessionFacts.session_consistent, SessionFacts.consistent_load.
Qed.

(** The entry a successful submission creates is the one a constructor
    built at the clock of the submission. *)
Lemma logs_constructed (c : Entry.clock) (st : state) (w : value) :
  logs Number LocalTZA c st w ->
  exists coordinates distance duration x,
    w = Entry.Running LocalTZA c coordinates distance duration x
    \/ w = Entry.Cycling LocalTZA c coordinates distance duration x.
Proof.
  intros (l & st' & Hws & Hrun & Hws').
  apply SessionFacts.newWorkout_returned in Hrun
      as [-> | (ll & l0 & lm & w0 & _ & Hws0 & _ & -> & Hw0)].
  - cbn in Hws'. rewrite Hws in Hws'. injection Hws' as Hl.
    apply (f_equal (@List.length value)) in Hl. rewrite length_app in Hl.
    cbn in Hl. lia.
  - cbn in Hws'. rewrite Hws in Hws0. injection Hws0 as <-.
    injection Hws' as Hl. apply app_inv_head in Hl. injection Hl as ->.
    destruct Hw0 as [-> | ->]; eauto 6.
Qed.

Lemma id_of_entry (c : Entry.clock) (w : value) :
  (exists coordinates distance duration x,
      w = Entry.Running LocalTZA c coordinates distance duration x
      \/ w = Entry.Cycling LocalTZA c coordinates distance duration x) ->
  JS.get w "id" = Some (VString (Entry.new_id (Entry.Date_now c))).
Proof.
  intros (co & d & t & x & [-> | ->]); reflexivity.
Qed.

End Host.

(** ** Identifiers *)

(** C1, as stated, fails: in the session [Sample.two_entries] a run and a
    ride are logged 10^10 ms apart, and both get the id ["0000000000"]. *)
Lemma ids_collide_ten_billion_ms_apart :
  ids (workouts Sample.two_entries)
  = [Some (VString "0000000000"); Some (VString "0000000000")]
  /\ ~ NoDup (ids (workouts Sample.two_entries)).
Proof.
  assert (ids (workouts Sample.two_entries)
          = [Some (VString "0000000000"); Some (VString "0000000000")]) as E
      by (vm_compute; reflexivity).
  split; [exact E |]. rewrite E. intros H.
  inversion H as [|? ? Hnotin _]; subst. apply Hnotin. now left.
Qed.

(** C1, amended: two entries created by successful submissions have
    distinct ids when the clock, read by [Date.now()] at their creation, is
    not negative and gave two different readings less than 10^10 ms
    apart. *)
Theorem ids_distinct_within_window
  (Number : string -> number) (LocalTZA : Z -> Z)
  (c1 c2 : Entry.clock) (st1 st2 : state) (w1 w2 : value) :
  logs Number LocalTZA c1 st1 w1 ->
  logs Number LocalTZA c2 st2 w2 ->
  0 <= Entry.Date_now c1 -> 0 <= Entry.Date_now c2 ->
  Entry.Date_now c1 <> Entry.Date_now c2 ->
  Z.abs (Entry.Date_now c2 - Entry.Date_now c1) < 10000000000 ->
  exists i1 i2,
    JS.get w1 "id" = Some (VString i1) /\ JS.get w2 "id" = Some (VString i2)
    /\ i1 <> i2.
Proof.
  intros L1 L2 H1 H2 Hne Hwin.
  exists (Entry.new_id (Entry.Date_now c1)), (Entry.new_id (Entry.Date_now c2)).
  repeat split.
  - exact (id_of_entry LocalTZA c1 w1 (logs_constructed Number LocalTZA c1 st1 w1 L1)).
  - exact (id_of_entry LocalTZA c2 w2 (logs_constructed Number LocalTZA c2 st2 w2 L2)).
  - now apply StrFacts.new_id_distinct.
Qed.

Lemma ids_distinct_within_window_witness :
  exists i1 i2,
    JS.get Sample.the_run "id" = Some (VString i1)
    /\ JS.get Sample.the_ride "id" = Some (VString i2)
    /\ i1 <> i2.
Proof.
  apply (ids_distinct_within_window Sample.Number Sample.UTC
           (Sample.at_time Sample.t0) (Sample.at_time (Sample.t0 + 5000))
           Sample.run_typed Sample.ride_typed).
  - exists [], Sample.one_run. repeat split; vm_compute; reflexivity.
  - exists [Sample.the_run].
    exists (final_state (_newWorkout Sample.Number Sample.UTC
                           (Sample.at_time (Sample.t0 + 5000)) Sample.ride_typed)).
    repeat split; vm_compute; reflexivity.
  - vm_compute. discriminate.
  - vm_compute. discriminate.
  - vm_compute. discriminate.
  - vm_compute. reflexivity.
Defined.

(** ** The derived metric *)

(** C2: an entry holds, from its construction, the pace
    [duration / distance] when it is a [Running] and the speed
    [distance / (duration / 60)] when it is a [Cycling], computed from the
    distance and duration it holds. This is so for all Numbers, the valid
    ones among them. *)
Theorem derived_metric_at_construction
  (LocalTZA : Z -> Z) (c : Entry.clock) (coordinates : value)
  (distance duration x : number) :
  (let e := Entry.Running LocalTZA c coordinates distance duration x in
   JS.get e "distance" = Some (VNumber distance)
   /\ JS.get e "duration" = Some (VNumber duration)
   /\ JS.get e "pace" = Some (VNumber (Num.div duration distance)))
  /\ (let e := Entry.Cycling LocalTZA c coordinates distance duration x in
      JS.get e "distance" = Some (VNumber distance)
      /\ JS.get e "duration" = Some (VNumber duration)
      /\ JS.get e "speed"
         = Some (VNumber (Num.div distance (Num.div duration Num.sixty)))).
Proof. repeat split. Qed.

(** ** Validation *)

(** C3: a submission whose fields fail the test of its kind makes no
    entry and leaves the log and its snapshot as they were; with the map
    click of the submission recorded, it shows the alert that stands for
    [InvalidInputError] and returns, the alert being all that changed. *)
Theorem invalid_submission_refused
  (Number : string -> number) (LocalTZA : Z -> Z)
  (c : Entry.clock) (st : state) :
  (inputType (form st) = "running"%string
   /\ (Num.isFinite (distance_of Number st) = false
       \/ Num.isFinite (duration_of Number st) = false
       \/ Num.isFinite (cadence_of Number st) = false
       \/ Num.gt (distance_of Number st) Num.zero = false
       \/ Num.gt (duration_of Number st) Num.zero = false
       \/ Num.gt (cadence_of Number st) Num.zero = false))
  \/ (inputType (form st) = "cycling"%string
      /\ (Num.isFinite (distance_of Number st) = false
          \/ Num.isFinite (duration_of Number st) = false
          \/ Num.isFinite (elevation_of Number st) = false
          \/ Num.gt (distance_of Number st) Num.zero = false
          \/ Num.gt (duration_of Number st) Num.zero = false)) ->
  workouts (final_state (_newWorkout Number LocalTZA c st)) = workouts st
  /\ localStorage (final_state (_newWorkout Number LocalTZA c st)) = localStorage st
  /\ (mapEvent st <> None ->
      _newWorkout Number LocalTZA c st
      = Returned tt (with_alerts (positive_number_message :: alerts st) st)).
Proof.
  intros Hbad.
  destruct (mapEvent st) as [ll|] eqn:Hev;
    [| rewrite (AppFacts.newWorkout_no_click Number LocalTZA c st Hev);
       repeat split; congruence].
  assert (_newWorkout Number LocalTZA c st = Returned tt (refused st)) as E.
  { destruct Hbad as [[Hty Hbad] | [Hty Hbad]].
    - apply (AppFacts.newWorkout_running_refused _ _ _ _ ll Hev Hty).
      unfold running_accepted, allPositive. cbn [forallb].
      destruct Hbad as [H | [H | [H | [H | [H | H]]]]]; rewrite H;
        rewrite ?andb_false_r, ?andb_false_l; reflexivity.
    - apply (AppFacts.newWorkout_cycling_refused _ _ _ _ ll Hev Hty).
      unfold cycling_accepted, validInputs, allPositive. cbn [forallb].
      destruct Hbad as [H | [H | [H | [H | H]]]]; rewrite H;
        rewrite ?andb_false_r, ?andb_false_l; reflexivity. }
  rewrite E. repeat split.
Qed.

Lemma invalid_submission_refused_witness :
  workouts (final_state (_newWorkout Sample.Number Sample.UTC
                           (Sample.at_time Sample.t0) Sample.minus_five_typed))
  = workouts Sample.minus_five_typed
  /\ localStorage (final_state (_newWorkout Sample.Number Sample.UTC
                                  (Sample.at_time Sample.t0) Sample.minus_five_typed))
     = localStorage Sample.minus_five_typed
  /\ _newWorkout Sample.Number Sample.UTC (Sample.at_time Sample.t0)
       Sample.minus_five_typed
     = Returned tt (with_alerts (positive_number_message
                                   :: alerts Sample.minus_five_typed)
                      Sample.minus_five_typed).
Proof.
  destruct (invalid_submission_refused Sample.Number Sample.UTC
              (Sample.at_time Sample.t0) Sample.minus_five_typed)
    as (Hlog & Hstored & Halert).
  - left. split; [vm_compute; reflexivity |].
    right. right. right. left. vm_compute. reflexivity.
  - split; [exact Hlog |]. split; [exact Hstored |].
    apply Halert. vm_compute. discriminate.
Defined.

(** ** Persistence *)

(** What [_getLocalStorage] puts in memory is what [JSON.parse] read,
    whether or not the list could then be rendered. *)
Lemma restore_workouts (st : state) (j : JSON.json) :
  localStorage st = Some (Document j) ->
  JS.truthy (JSON.parse j) = true ->
  workouts (restore st) = JSON.parse j.
Proof.
  intros Hst Htruthy. unfold restore, _getLocalStorage.
  rewrite MonadFacts.bind_read, Hst, MonadFacts.bind_ret, Htruthy. cbn [negb].
  rewrite MonadFacts.bind_write, MonadFacts.bind_read.
  change (workouts (with_workouts (JSON.parse j) st)) with (JSON.parse j).
  destruct (JSON.parse j) as [| | | | | |l|] eqn:E; try reflexivity.
  cbn [elements]. rewrite MonadFacts.bind_ret.
  destruct (SessionFacts.forEach_renderWorkout_frame l (with_workouts (VArray l) st))
    as [li ->].
  reflexivity.
Qed.

(** The log of the next visit, restored from the snapshot of this one. *)
Lemma roundtrip_workouts (f : form_fields) (st : state) (l : list value) :
  workouts st = VArray l ->
  workouts (restore (next_visit f (persist st)))
  = VArray (List.map (fun e => JSON.parse (Snapshot.item e)) l).
Proof.
  intros Hws.
  rewrite (restore_workouts _ (JSON.JArray (List.map Snapshot.item l))).
  - cbn [JSON.parse]. now rewrite map_map.
  - unfold next_visit, persist. cbn. unfold snapshot. now rewrite Hws.
  - reflexivity.
Qed.

(** C4, as stated, fails: the run logged in [Sample.one_run] holds a
    [Date] in its field [date]; after [persist] and [restore] the field
    holds the text of that date, so the log is not the log that was
    persisted. *)
Lemma roundtrip_changes_date :
  workouts (restore (next_visit Sample.blank (persist Sample.one_run)))
  <> workouts Sample.one_run
  /\ (exists w, workouts Sample.one_run = VArray [w]
                /\ JS.get w "date" = Some (VDate 1700000000000))
  /\ (exists w, workouts (restore (next_visit Sample.blank (persist Sample.one_run)))
                = VArray [w]
                /\ JS.get w "date" = Some (VString "2023-11-14T22:13:20.000Z")).
Proof.
  repeat split.
  - vm_compute. discriminate.
  - eexists. split; vm_compute; reflexivity.
  - eexists. split; vm_compute; reflexivity.
Qed.

(** C4, amended: restoring from the snapshot written by [persist] gives a
    log with as many entries, in the same order; of an entry that is a
    record with distinct field names, every field that holds a plain value
    (a string, a boolean, [null], a finite Number other than negative
    zero, or an array or record of such) holds the same value after, a
    field that holds a valid [Date] holds its ISO text, and no field is
    added. *)
Theorem roundtrip_plain_fields
  (f : form_fields) (st : state) (l : list value) :
  workouts st = VArray l ->
  exists l',
    workouts (restore (next_visit f (persist st))) = VArray l'
    /\ List.length l' = List.length l
    /\ forall i ps,
        nth_error l i = Some (VObject ps) ->
        NoDup (List.map fst ps) ->
        exists ps',
          nth_error l' i = Some (VObject ps')
          /\ (forall k x, JS.lookup k ps = Some x -> plain x ->
                          JS.lookup k ps' = Some x)
          /\ (forall k t, JS.lookup k ps = Some (VDate t) ->
                          DateTime.in_range t = true ->
                          JS.lookup k ps' = Some (VString (DateTime.toISOString t)))
          /\ (forall k, JS.lookup k ps = None -> JS.lookup k ps' = None).
Proof.
  intros Hws. eexists. split; [apply (roundtrip_workouts f st l Hws) |].
  split; [apply length_map |].
  intros i ps Hi Hnd.
  exists (Snapshot.build (List.flat_map Snapshot.member ps) []).
  split; [rewrite nth_error_map, Hi; reflexivity |].
  repeat split.
  - intros k x Hk Hx. rewrite JSONFacts.lookup_roundtrip, Hk by assumption.
    destruct (JSONFacts.plain_roundtrip x Hx) as (j & -> & Hp). cbn. now rewrite Hp.
  - intros k t Hk Ht. rewrite JSONFacts.lookup_roundtrip, Hk by assumption.
    cbn. now rewrite Ht.
  - intros k Hk. now rewrite JSONFacts.lookup_roundtrip, Hk by assumption.
Qed.

Lemma roundtrip_plain_fields_witness :
  exists l' ps',
    workouts (restore (next_visit Sample.blank (persist Sample.one_run))) = VArray l'
    /\ List.length l' = 1%nat
    /\ nth_error l' 0 = Some (VObject ps')
    /\ JS.lookup "id" ps' = Some (VString "0000000000")
    /\ JS.lookup "distance" ps' = Some (VNumber (Sample.Number "5.2"))
    /\ JS.lookup "date" ps' = Some (VString "2023-11-14T22:13:20.000Z")
    /\ JS.lookup "speed" ps' = None.
Proof.
  destruct (roundtrip_plain_fields Sample.blank Sample.one_run [Sample.the_run])
    as (l' & Hl' & Hlen & Hfields); [vm_compute; reflexivity |].
  destruct (Hfields 0%nat
              (match Sample.the_run with VObject ps => ps | _ => [] end) eq_refl)
    as (ps' & Hnth & Hplain & Hdate & Hnone).
  { cbn. repeat (constructor; [cbn; intuition discriminate |]). constructor. }
  exists l', ps'.
  split; [exact Hl' |]. split; [exact Hlen |]. split; [exact Hnth |].
  split; [apply Hplain; [reflexivity | exact I] |].
  split; [apply Hplain;
          [reflexivity | split; [vm_compute; reflexivity | vm_compute; discriminate]] |].
  split; [apply (Hdate "date"%string 1700000000000); reflexivity |].
  apply Hnone. reflexivity.
Defined.

(** A positive finite Number is plain. *)
Lemma positive_plain (x : number) :
  Num.isFinite x = true -> Num.gt x Num.zero = true -> plain (VNumber x).
Proof.
  intros Hfin Hpos. split; [exact Hfin |]. intros ->. discriminate.
Qed.

(** In particular a run that a submission logged comes back with its id,
    kind, label, distance, duration and cadence, and with the text of its
    date. *)
Corollary roundtrip_logged_run
  (Number : string -> number) (LocalTZA : Z -> Z) (c : Entry.clock)
  (st : state) (ll : latlng) :
  running_accepted Number st = true ->
  DateTime.in_range (Entry.Date_new c) = true ->
  let e := Entry.Running LocalTZA c (coordinates_of ll) (distance_of Number st)
             (duration_of Number st) (cadence_of Number st) in
  let e' := JSON.parse (Snapshot.item e) in
  JS.get e' "id" = JS.get e "id"
  /\ JS.get e' "type" = JS.get e "type"
  /\ JS.get e' "description" = JS.get e "description"
  /\ JS.get e' "distance" = JS.get e "distance"
  /\ JS.get e' "duration" = JS.get e "duration"
  /\ JS.get e' "cadence" = JS.get e "cadence"
  /\ JS.get e' "date" = Some (VString (DateTime.toISOString (Entry.Date_new c))).
Proof.
  intros Hok Hdate e e'.
  unfold running_accepted, allPositive in Hok. cbn [forallb] in Hok.
  apply andb_prop in Hok as [Hfin Hpos].
  apply andb_prop in Hfin as [Hfin Hfc]. apply andb_prop in Hfin as [Hfd Hft].
  apply andb_prop in Hpos as [Hpd Hpos]. apply andb_prop in Hpos as [Hpt Hpos].
  apply andb_prop in Hpos as [Hpc _].
  assert (forall k, JS.get e' k
                    = Some (match match JS.get e k with
                                  | Some x => option_map JSON.parse (JSON.stringify x)
                                  | None => None
                                  end with
                            | Some y => y
                            | None => VUndefined
                            end)) as Hget.
  { intros k. unfold e', e. rewrite EntryFacts.Running_props.
    unfold Snapshot.item. rewrite JSONFacts.stringify_object, JSONFacts.parse_object.
    cbn [JS.get]. rewrite JSONFacts.lookup_roundtrip.
    - now destruct (JS.lookup k _).
    - cbn. repeat (constructor; [cbn; intuition discriminate |]). constructor. }
  assert (forall x, Num.isFinite x = true -> Num.gt x Num.zero = true ->
                    option_map JSON.parse (JSON.stringify (VNumber x))
                    = Some (VNumber x)) as Hnum.
  { intros x Hf Hp.
    destruct (JSONFacts.plain_roundtrip _ (positive_plain x Hf Hp)) as (j & -> & Hj).
    cbn. now rewrite Hj. }
  repeat split; rewrite Hget; unfold e; rewrite EntryFacts.Running_props;
    cbn [JS.get JS.lookup String.eqb Ascii.eqb Bool.eqb];
    rewrite ?Hnum by assumption; try reflexivity.
  cbn. now rewrite Hdate.
Qed.

(** C5: [restore] puts in memory the records of the snapshot as they are
    written: whatever a member of a record with distinct names holds, the
    entry holds for that field, a Number for a Number, a text for a text.
    Nothing is tested and no metric is computed; that the list may then
    fail to render does not change what was adopted. *)
Theorem restore_adopts_verbatim
  (st : state) (items : list JSON.json) :
  localStorage st = Some (Document (JSON.JArray items)) ->
  exists l,
    workouts (restore st) = VArray l
    /\ List.length l = List.length items
    /\ forall i ms,
        nth_error items i = Some (JSON.JObject ms) ->
        NoDup (List.map fst ms) ->
        exists e,
          nth_error l i = Some e
          /\ (forall k j, In (k, j) ms -> JS.get e k = Some (JSON.parse j))
          /\ (forall k x, In (k, JSON.JNumber x) ms -> JS.get e k = Some (VNumber x))
          /\ (forall k s, In (k, JSON.JString s) ms -> JS.get e k = Some (VString s)).
Proof.
  intros Hst. exists (List.map JSON.parse items).
  split; [now apply (restore_workouts st (JSON.JArray items)) |].
  split; [apply length_map |].
  intros i ms Hi Hnd. exists (JSON.parse (JSON.JObject ms)).
  split; [rewrite nth_error_map, Hi; reflexivity |].
  assert (forall k j, In (k, j) ms ->
                      JS.get (JSON.parse (JSON.JObject ms)) k = Some (JSON.parse j)) as H.
  { intros k j Hin. rewrite JSONFacts.parse_object. cbn [JS.get].
    now rewrite JSONFacts.lookup_build, (JSONFacts.latest_In k j ms Hnd Hin). }
  repeat split; intros k y Hin; apply (H _ _ Hin).
Qed.

Lemma restore_adopts_verbatim_witness :
  exists l e,
    workouts (restore Sample.stale_page) = VArray l
    /\ List.length l = 1%nat
    /\ nth_error l 0 = Some e
    /\ JS.get e "id" = Some (VString "0000000000")
    /\ JS.get e "distance" = Some (VNumber (Num.of_Z 20))
    /\ JS.get e "duration" = Some (VNumber (Num.of_Z 95))
    /\ JS.get e "speed" = Some (VNumber (Num.of_Z 99)).
Proof.
  destruct (restore_adopts_verbatim Sample.stale_page Sample.stale_items eq_refl)
    as (l & Hl & Hlen & Hfields).
  destruct (Hfields 0%nat
              (match Sample.stale_items with
               | JSON.JObject ms :: _ => ms
               | _ => []
               end) eq_refl)
    as (e & Hnth & _ & Hnumber & Hstring).
  { cbn. repeat (constructor; [cbn; intuition discriminate |]). constructor. }
  exists l, e.
  split; [exact Hl |]. split; [exact Hlen |]. split; [exact Hnth |].
  split; [apply Hstring; cbn; tauto |].
  split; [apply Hnumber; cbn; tauto |].
  split; [apply Hnumber; cbn; tauto |].
  apply Hnumber. cbn. tauto.
Defined.

(** The stored speed 99 of the ride of [Sample.stale_items], which is
    not [20 / (95 / 60)], is the speed in memory after [restore]. *)
Example stale_speed_adopted :
  exists e,
    workouts (restore Sample.stale_page) = VArray [e]
    /\ JS.get e "distance" = Some (VNumber (Num.of_Z 20))
    /\ JS.get e "duration" = Some (VNumber (Num.of_Z 95))
    /\ JS.get e "speed" = Some (VNumber (Num.of_Z 99))
    /\ Num.div (Num.of_Z 20) (Num.div (Num.of_Z 95) Num.sixty) <> Num.of_Z 99.
Proof.
  eexists. repeat split; try (vm_compute; reflexivity). vm_compute. discriminate.
Qed.

(** C6: [persist] returns and writes the snapshot of the log; done again
    at once it returns and leaves the very same state, the same snapshot in
    the slot. *)
Theorem persist_idempotent (st : state) :
  _setLocalStorage st = Returned tt (persist st)
  /\ _setLocalStorage (persist st) = Returned tt (persist st)
  /\ localStorage (persist (persist st)) = localStorage (persist st)
  /\ localStorage (persist st) = Some (snapshot (workouts st)).
Proof. repeat split. Qed.

(** ** The two kinds are not tested alike *)

(** C7: in a state a visit can be in, once the listeners are registered
    and a map click is recorded, a cycling submission with a finite distance
    and duration above zero and a finite elevation is logged, whatever the
    sign of the elevation; with an elevation that is not finite it is
    refused; and a running submission whose cadence is not above zero is
    refused. *)
Theorem elevation_sign_not_tested
  (Number : string -> number) (LocalTZA : Z -> Z)
  (c : Entry.clock) (st : state) (ll : latlng) :
  reachable Number LocalTZA st ->
  listening st = true ->
  mapEvent st = Some ll ->
  (inputType (form st) = "cycling"%string ->
   Num.isFinite (distance_of Number st) = true ->
   Num.gt (distance_of Number st) Num.zero = true ->
   Num.isFinite (duration_of Number st) = true ->
   Num.gt (duration_of Number st) Num.zero = true ->
   Num.isFinite (elevation_of Number st) = true ->
   exists l lm,
     workouts st = VArray l /\ map st = Some lm
     /\ _newWorkout Number LocalTZA c st
        = Returned tt
            (logged (Entry.Cycling LocalTZA c (coordinates_of ll)
                       (distance_of Number st) (duration_of Number st)
                       (elevation_of Number st)) l lm st))
  /\ (inputType (form st) = "cycling"%string ->
      Num.isFinite (elevation_of Number st) = false ->
      _newWorkout Number LocalTZA c st = Returned tt (refused st))
  /\ (inputType (form st) = "running"%string ->
      Num.gt (cadence_of Number st) Num.zero = false ->
      _newWorkout Number LocalTZA c st = Returned tt (refused st)).
Proof.
  intros Hreach Hlis Hev.
  destruct (reachable_consistent Number LocalTZA st Hreach) as [Harr Hmap].
  repeat split.
  - intros Hty Hd Hd0 Ht Ht0 He.
    specialize (Harr Hlis). destruct (workouts st) as [| | | | | |l|] eqn:Hws;
      try discriminate.
    destruct (map st) as [lm|] eqn:Hm; [| exfalso; apply Hmap; congruence].
    exists l, lm. repeat split.
    apply AppFacts.newWorkout_cycling_logged; try assumption.
    unfold cycling_accepted, validInputs, allPositive. cbn [forallb].
    now rewrite Hd, Hd0, Ht, Ht0, He.
  - intros Hty He. apply (AppFacts.newWorkout_cycling_refused _ _ _ _ ll Hev Hty).
    unfold cycling_accepted, validInputs. cbn [forallb].
    rewrite He. now rewrite !andb_false_r.
  - intros Hty Hc. apply (AppFacts.newWorkout_running_refused _ _ _ _ ll Hev Hty).
    unfold running_accepted, allPositive. cbn [forallb].
    rewrite Hc. now rewrite !andb_false_r.
Qed.

Lemma elevation_sign_not_tested_witness :
  (Num.gt (elevation_of Sample.Number Sample.ride_typed) Num.zero = false
   /\ exists l lm,
       workouts Sample.ride_typed = VArray l /\ map Sample.ride_typed = Some lm
       /\ _newWorkout Sample.Number Sample.UTC (Sample.at_time (Sample.t0 + 5000))
            Sample.ride_typed
          = Returned tt (logged Sample.the_ride l lm Sample.ride_typed))
  /\ _newWorkout Sample.Number Sample.UTC (Sample.at_time (Sample.t0 + 5000))
       Sample.endless_climb_typed
     = Returned tt (refused Sample.endless_climb_typed)
  /\ _newWorkout Sample.Number Sample.UTC (Sample.at_time Sample.t0)
       Sample.no_cadence_typed
     = Returned tt (refused Sample.no_cadence_typed).
Proof.
  assert (forall evs st,
             st = session Sample.Number Sample.UTC evs (load true Sample.blank None) ->
             reachable Sample.Number Sample.UTC st) as Hreach
      by (intros evs st ->; now exists true, Sample.blank, None, evs).
  split; [split; [vm_compute; reflexivity |] |]; [| split].
  - destruct (elevation_sign_not_tested Sample.Number Sample.UTC
                (Sample.at_time (Sample.t0 + 5000)) Sample.ride_typed Sample.here)
      as [Hlogged _].
    + apply (Hreach ([PositionFound (Num.of_Z 40) (Num.of_Z (-74));
                      MapClicked Sample.here]
                       ++ Sample.fill_running
                       ++ [FormSubmitted (Sample.at_time Sample.t0)]
                       ++ Sample.fill_cycling)).
      vm_compute. reflexivity.
    + vm_compute. reflexivity.
    + vm_compute. reflexivity.
    + apply Hlogged; vm_compute; reflexivity.
  - destruct (elevation_sign_not_tested Sample.Number Sample.UTC
                (Sample.at_time (Sample.t0 + 5000)) Sample.endless_climb_typed
                Sample.here)
      as (_ & Hrefused & _).
    + apply (Hreach ([PositionFound (Num.of_Z 40) (Num.of_Z (-74));
                      MapClicked Sample.here]
                       ++ Sample.fill_running
                       ++ [FormSubmitted (Sample.at_time Sample.t0)]
                       ++ Sample.fill_cycling
                       ++ [FieldEdited Elevation "Infinity"])).
      vm_compute. reflexivity.
    + vm_compute. reflexivity.
    + vm_compute. reflexivity.
    + apply Hrefused; vm_compute; reflexivity.
  - destruct (elevation_sign_not_tested Sample.Number Sample.UTC
                (Sample.at_time Sample.t0) Sample.no_cadence_typed Sample.here)
      as (_ & _ & Hrefused).
    + apply (Hreach ([PositionFound (Num.of_Z 40) (Num.of_Z (-74));
                      MapClicked Sample.here]
                       ++ Sample.fill_running ++ [FieldEdited Cadence "0"])).
      vm_compute. reflexivity.
    + vm_compute. reflexivity.
    + vm_compute. reflexivity.
    + apply Hrefused; vm_compute; reflexivity.
Defined.

(** ** Centering the map *)

(** C8, as stated, fails: a click on a list item whose id no entry of the
    log has ends in an uncaught TypeError; no other error is signalled and
    nothing guards the lookup. *)
Lemma recenter_unknown_id_throws :
  ids (workouts Sample.one_run) = [Some (VString "0000000000")]
  /\ _centerMapOnPopup (Some "1234567890"%string) Sample.one_run
     = Thrown TypeError Sample.one_run.
Proof. split; vm_compute; reflexivity. Qed.

(** C8, amended: on a click on the list item of id [id], when the map is
    loaded and the first entry with that id comes after none that is
    [undefined] or [null], the map is asked for a view centered on that
    entry's coordinates at the zoom level 13 of [mapZoomLevel]; when no
    entry has that id, the handler ends in an uncaught TypeError and changes
    nothing. *)
Theorem recenter_on_first_match (st : state) (id : string) :
  (forall l1 e l2 lm,
      workouts st = VArray (l1 ++ e :: l2) ->
      Forall (fun x => defined x = true /\ has_id id x = false) l1 ->
      has_id id e = true ->
      map st = Some lm ->
      exists coordinates,
        JS.get e "coordinates" = Some coordinates
        /\ _centerMapOnPopup (Some id) st
           = Returned tt
               (with_map (Some {| center := coordinates; zoom := mapZoomLevel;
                                  markers := markers lm |}) st))
  /\ (forall l,
         workouts st = VArray l ->
         Forall (fun x => has_id id x = false) l ->
         _centerMapOnPopup (Some id) st = Thrown TypeError st).
Proof.
  split.
  - intros l1 e l2 lm Hws Hl1 He Hm.
    assert (exists coordinates, JS.get e "coordinates" = Some coordinates)
      as [coordinates Hco]
        by (unfold has_id in He; destruct e; try discriminate; eexists; reflexivity).
    exists coordinates. split; [exact Hco |].
    unfold _centerMapOnPopup. rewrite MonadFacts.bind_read, Hws. cbn [elements].
    rewrite MonadFacts.bind_ret.
    rewrite (MonadFacts.bind_Returned _ _ _ _ _
               (SessionFacts.find_first id l1 l2 e st Hl1 He)).
    rewrite MonadFacts.bind_read, Hm. unfold prop. rewrite Hco.
    now rewrite MonadFacts.bind_ret.
  - intros l Hws Hl.
    unfold _centerMapOnPopup. rewrite MonadFacts.bind_read, Hws. cbn [elements].
    rewrite MonadFacts.bind_ret.
    destruct (SessionFacts.find_none id l st Hl) as [E | E].
    + rewrite (MonadFacts.bind_Returned _ _ _ _ _ E), MonadFacts.bind_read.
      now destruct (map st).
    + now rewrite (MonadFacts.bind_Thrown _ _ _ _ _ E).
Qed.

Lemma recenter_on_first_match_witness :
  (exists coordinates,
      JS.get Sample.the_run "coordinates" = Some coordinates
      /\ _centerMapOnPopup (Some "0000000000"%string) Sample.two_entries
         = Returned tt
             (with_map
                (Some {| center := coordinates; zoom := mapZoomLevel;
                         markers := markers Sample.both_on_map |})
                Sample.two_entries))
  /\ _centerMapOnPopup (Some "1234567890"%string) Sample.two_entries
     = Thrown TypeError Sample.two_entries.
Proof.
  destruct (recenter_on_first_match Sample.two_entries "0000000000") as [Hfound _].
  destruct (recenter_on_first_match Sample.two_entries "1234567890") as [_ Hnone].
  split.
  - apply (Hfound [] Sample.the_run [Sample.late_ride] Sample.both_on_map).
    + vm_compute. reflexivity.
    + constructor.
    + vm_compute. reflexivity.
    + vm_compute. reflexivity.
  - apply (Hnone [Sample.the_run; Sample.late_ride]).
    + vm_compute. reflexivity.
    + repeat constructor.
Defined.

(** ** A refused submission and the map click *)

(** Typing into the form changes the form and nothing else. *)
Lemma typing_frame (Number : string -> number) (LocalTZA : Z -> Z)
  (edits : list (field * string)) (st : state) :
  exists f, session Number LocalTZA (typing edits) st = with_form f st.
Proof.
  revert st. induction edits as [|[which text] edits IH]; intros st.
  - exists (form st). now destruct st.
  - cbn [typing List.map session fold_left fst snd dispatch].
    destruct (IH (with_form (edit which text (form st)) st)) as [f Hf].
    exists f. unfold session, typing in Hf. now rewrite Hf.
Qed.

(** C9, as stated, fails: in [Sample.refused] a run of distance -5 was
    refused, and the map click is still recorded; in [Sample.retried] the
    distance is put right and the form submitted again, the map not being
    clicked in between, and the run is logged at the place of that
    click. *)
Lemma refused_keeps_map_click :
  alerts Sample.refused = [positive_number_message]
  /\ mapEvent Sample.refused = Some Sample.here
  /\ exists w,
      workouts Sample.retried = VArray [w]
      /\ JS.get w "coordinates" = Some (coordinates_of Sample.here).
Proof.
  split; [vm_compute; reflexivity |]. split; [vm_compute; reflexivity |].
  eexists. split; vm_compute; reflexivity.
Qed.

(** C9, amended: a refused submission leaves the recorded map click where
    it is; after the fields are typed again so that they pass the test of
    their kind, a submission is logged with the coordinates of that same
    click, no other click being needed. *)
Theorem retry_without_new_click
  (Number : string -> number) (LocalTZA : Z -> Z)
  (c c' : Entry.clock) (st : state) (ll : latlng) (lm : leaflet) (l : list value)
  (edits : list (field * string)) :
  mapEvent st = Some ll -> map st = Some lm -> workouts st = VArray l ->
  (inputType (form st) = "running"%string /\ running_accepted Number st = false)
  \/ (inputType (form st) = "cycling"%string /\ cycling_accepted Number st = false) ->
  let st1 := session Number LocalTZA (typing edits) (refused st) in
  (inputType (form st1) = "running"%string /\ running_accepted Number st1 = true)
  \/ (inputType (form st1) = "cycling"%string /\ cycling_accepted Number st1 = true) ->
  _newWorkout Number LocalTZA c st = Returned tt (refused st)
  /\ mapEvent (refused st) = Some ll
  /\ exists w,
      _newWorkout Number LocalTZA c' st1 = Returned tt (logged w l lm st1)
      /\ JS.get w "coordinates" = Some (coordinates_of ll).
Proof.
  intros Hev Hm Hws Hbad st1 Hgood. split; [| split; [exact Hev |]].
  - destruct Hbad as [[Hty Hno] | [Hty Hno]].
    + now apply (AppFacts.newWorkout_running_refused _ _ _ _ ll).
    + now apply (AppFacts.newWorkout_cycling_refused _ _ _ _ ll).
  - destruct (typing_frame Number LocalTZA edits (refused st)) as [f Hf].
    assert (mapEvent st1 = Some ll) as Hev1 by (unfold st1; now rewrite Hf).
    assert (map st1 = Some lm) as Hm1 by (unfold st1; now rewrite Hf).
    assert (workouts st1 = VArray l) as Hws1 by (unfold st1; now rewrite Hf).
    destruct Hgood as [[Hty Hok] | [Hty Hok]].
    + eexists. split;
        [now apply (AppFacts.newWorkout_running_logged _ _ _ _ ll) | reflexivity].
    + eexists. split;
        [now apply (AppFacts.newWorkout_cycling_logged _ _ _ _ ll) | reflexivity].
Qed.

Lemma retry_without_new_click_witness :
  let st := Sample.minus_five_typed in
  let st1 := session Sample.Number Sample.UTC (typing [(Distance, "5.2"%string)])
               (refused st) in
  _newWorkout Sample.Number Sample.UTC (Sample.at_time Sample.t0) st
  = Returned tt (refused st)
  /\ mapEvent (refused st) = Some Sample.here
  /\ exists w,
      _newWorkout Sample.Number Sample.UTC (Sample.at_time (Sample.t0 + 5000)) st1
      = Returned tt
          (logged w []
             {| center := VArray [VNumber (Num.of_Z 40); VNumber (Num.of_Z (-74))];
                zoom := 13; markers := [] |} st1)
      /\ JS.get w "coordinates" = Some (coordinates_of Sample.here).
Proof.
  intros st.
  apply (retry_without_new_click Sample.Number Sample.UTC
           (Sample.at_time Sample.t0) (Sample.at_time (Sample.t0 + 5000)) st
           Sample.here
           {| center := VArray [VNumber (Num.of_Z 40); VNumber (Num.of_Z (-74))];
              zoom := 13; markers := [] |} [] [(Distance, "5.2"%string)]).
  - vm_compute. reflexivity.
  - vm_compute. reflexivity.
  - vm_compute. reflexivity.
  - left. split; vm_compute; reflexivity.
  - left. split; vm_compute; reflexivity.
Defined.

(** ** A kind that is neither *)

(** C10, as stated, fails: with the kind ["swimming"] the handler pushes
    [undefined] and then fails on the list item; no list item and no marker
    are made, the form is not cleared, and nothing is persisted. *)
Lemma unknown_kind_not_persisted :
  let o := _newWorkout Sample.Number Sample.UTC (Sample.at_time Sample.t0)
             Sample.swimming in
  o = Thrown TypeError (with_workouts (VArray [VUndefined]) Sample.swimming)
  /\ localStorage (final_state o) = None
  /\ localStorage (final_state o) <> Some (snapshot (workouts (final_state o)))
  /\ list_items (final_state o) = []
  /\ map (final_state o) = map Sample.swimming.
Proof.
  cbv zeta. repeat split; try (vm_compute; reflexivity). vm_compute. discriminate.
Qed.

(** C10, amended: with a map click recorded and a kind that is neither
    ["running"] nor ["cycling"], the handler tests nothing and builds no
    entry, pushes [undefined] onto the log, and ends in an uncaught
    TypeError when it builds the list item: the log is longer by
    [undefined], and the list, the map, the form, the alerts and the
    persisted snapshot are as before. *)
Theorem unknown_kind_pushes_undefined
  (Number : string -> number) (LocalTZA : Z -> Z)
  (c : Entry.clock) (st : state) (ll : latlng) (l : list value) :
  mapEvent st = Some ll ->
  workouts st = VArray l ->
  inputType (form st) <> "running"%string ->
  inputType (form st) <> "cycling"%string ->
  _newWorkout Number LocalTZA c st
  = Thrown TypeError (with_workouts (VArray (l ++ [VUndefined])) st)
  /\ localStorage (final_state (_newWorkout Number LocalTZA c st)) = localStorage st
  /\ list_items (final_state (_newWorkout Number LocalTZA c st)) = list_items st
  /\ alerts (final_state (_newWorkout Number LocalTZA c st)) = alerts st.
Proof.
  intros Hev Hws Hr Hc.
  rewrite (AppFacts.newWorkout_other_kind Number LocalTZA c st ll l Hev Hws Hr Hc).
  repeat split.
Qed.

Lemma unknown_kind_pushes_undefined_witness :
  let o := _newWorkout Sample.Number Sample.UTC (Sample.at_time Sample.t0)
             Sample.swimming in
  o = Thrown TypeError (with_workouts (VArray ([] ++ [VUndefined])) Sample.swimming)
  /\ localStorage (final_state o) = localStorage Sample.swimming
  /\ list_items (final_state o) = list_items Sample.swimming
  /\ alerts (final_state o) = alerts Sample.swimming.
Proof.
  apply (unknown_kind_pushes_undefined Sample.Number Sample.UTC
           (Sample.at_time Sample.t0) Sample.swimming Sample.here []).
  - vm_compute. reflexivity.
  - vm_compute. reflexivity.
  - vm_compute. discriminate.
  - vm_compute. discriminate.
Defined.

(** * More of the page: rendering, loading, the map *)

Module PageFacts.

Import Page MonadFacts.

(** [_renderWorkout] inserts the list item of a renderable entry and fails
    on any other. *)
Lemma renderWorkout_run (w : value) (st : state) :
  _renderWorkout w st
  = if renderable w
    then Returned tt (with_list_items (w :: list_items st) st)
    else Thrown TypeError st.
Proof.
  unfold _renderWorkout, renderable, bind, prop.
  destruct (JS.get w "type") as [ty|]; [| reflexivity]. cbn [ret].
  destruct (JS.is_string ty "running").
  - destruct (JS.get w "pace") as [[]|]; cbn; try reflexivity.
    destruct (JS.is_string ty "cycling"); cbn; [| reflexivity].
    destruct (JS.get w "speed") as [[]|]; reflexivity.
  - cbn. destruct (JS.is_string ty "cycling"); cbn; [| reflexivity].
    destruct (JS.get w "speed") as [[]|]; reflexivity.
Qed.

(** Rendering a list stops at the first entry that is not renderable; the
    items made so far stay. *)
Lemma forEach_renderWorkout_run (l : list value) (st : state) :
  (forallb renderable l = true
   /\ forEach _renderWorkout l st
      = Returned tt (with_list_items (rev l ++ list_items st) st))
  \/ (forallb renderable l = false
      /\ exists l1 w l2,
          l = l1 ++ w :: l2 /\ forallb renderable l1 = true
          /\ renderable w = false
          /\ forEach _renderWorkout l st
             = Thrown TypeError (with_list_items (rev l1 ++ list_items st) st)).
Proof.
  revert st. induction l as [|w l IH]; intros st.
  - left. split; [reflexivity |]. now destruct st.
  - cbn [forEach forallb]. unfold bind. rewrite renderWorkout_run.
    destruct (renderable w) eqn:Hw.
    + destruct (IH (with_list_items (w :: list_items st) st))
        as [[Hall ->] | (Hno & l1 & x & l2 & -> & Hl1 & Hx & ->)].
      * left. split; [exact Hall |]. cbn [rev list_items with_list_items].
        now rewrite <- app_assoc.
      * right. split; [exact Hno |]. exists (w :: l1), x, l2.
        cbn [forallb rev]. rewrite Hw, Hl1.
        repeat split; try assumption. cbn [list_items with_list_items].
        now rewrite <- app_assoc.
    + right. split; [reflexivity |]. exists [], w, l.
      repeat split; try assumption. now destruct st.
Qed.

(** [_renderWorkoutMarker], on a map, adds the marker of an entry that is
    neither [undefined] nor [null] and fails on one that is. *)
Lemma renderWorkoutMarker_run (w : value) (st : state) (lm : leaflet) :
  map st = Some lm ->
  _renderWorkoutMarker w st
  = if Log.defined w
    then Returned tt (with_map (Some {| center := center lm; zoom := zoom lm;
                                        markers := w :: markers lm |}) st)
    else Thrown TypeError st.
Proof.
  intros Hm. unfold _renderWorkoutMarker, bind, prop, read.
  destruct w; cbn; rewrite ?Hm; reflexivity.
Qed.

Lemma forEach_renderWorkoutMarker_run (l : list value) (st : state) (lm : leaflet) :
  map st = Some lm ->
  (forallb Log.defined l = true
   /\ forEach _renderWorkoutMarker l st
      = Returned tt (with_map (Some {| center := center lm; zoom := zoom lm;
                                       markers := rev l ++ markers lm |}) st))
  \/ (forallb Log.defined l = false
      /\ exists l1 w l2,
          l = l1 ++ w :: l2 /\ forallb Log.defined l1 = true
          /\ Log.defined w = false
          /\ forEach _renderWorkoutMarker l st
             = Thrown TypeError
                 (with_map (Some {| center := center lm; zoom := zoom lm;
                                    markers := rev l1 ++ markers lm |}) st)).
Proof.
  revert st lm. induction l as [|w l IH]; intros st lm Hm.
  - left. split; [reflexivity |]. destruct st, lm. cbn in *. now subst.
  - cbn [forEach forallb]. unfold bind. rewrite (renderWorkoutMarker_run w st lm Hm).
    destruct (Log.defined w) eqn:Hw.
    + edestruct (IH (with_map (Some {| center := center lm; zoom := zoom lm;
                                       markers := w :: markers lm |}) st))
        as [[Hall ->] | (Hno & l1 & x & l2 & -> & Hl1 & Hx & ->)]; [reflexivity | |].
      * left. split; [exact Hall |]. cbn [rev center zoom markers with_map].
        now rewrite <- app_assoc.
      * right. split; [exact Hno |]. exists (w :: l1), x, l2.
        cbn [forallb rev]. rewrite Hw, Hl1.
        repeat split; try assumption. cbn [center zoom markers with_map].
        now rewrite <- app_assoc.
    + right. split; [reflexivity |]. exists [], w, l.
      repeat split; try assumption. destruct st, lm. cbn in *. now subst.
Qed.

Lemma renderable_defined (w : value) : renderable w = true -> Log.defined w = true.
Proof. unfold renderable. now destruct w. Qed.


(** [_getLocalStorage] on a stored array: the log is adopted, then the
    list is rendered. *)
Lemma getLocalStorage_array (st : state) (j : JSON.json) (l : list value) :
  localStorage st = Some (Document j) ->
  JSON.parse j = VArray l ->
  _getLocalStorage st
  = forEach _renderWorkout l (with_workouts (VArray l) st).
Proof.
  intros Hst Hj. unfold _getLocalStorage.
  rewrite bind_read, Hst, bind_ret, Hj. cbn [JS.truthy negb].
  now rewrite bind_write, bind_read.
Qed.

(** On stored JSON that reads as a truthy value other than an array, the
    value is adopted as the log and [forEach] is missing. *)
Lemma getLocalStorage_not_array (st : state) (j : JSON.json) :
  localStorage st = Some (Document j) ->
  JS.truthy (JSON.parse j) = true ->
  Log.is_array (JSON.parse j) = false ->
  _getLocalStorage st = Thrown TypeError (with_workouts (JSON.parse j) st).
Proof.
  intros Hst Htruthy Harr. unfold _getLocalStorage.
  rewrite bind_read, Hst, bind_ret, Htruthy. cbn [negb].
  rewrite bind_write, bind_read. cbn [workouts with_workouts].
  destruct (JSON.parse j); try discriminate; reflexivity.
Qed.

Lemma getLocalStorage_falsy (st : state) (j : JSON.json) :
  localStorage st = Some (Document j) ->
  JS.truthy (JSON.parse j) = false ->
  _getLocalStorage st = Returned tt st.
Proof.
  intros Hst Hfalsy. unfold _getLocalStorage.
  now rewrite bind_read, Hst, bind_ret, Hfalsy.
Qed.

Lemma getLocalStorage_missing (st : state) :
  localStorage st = None -> _getLocalStorage st = Returned tt st.
Proof.
  intros Hst. unfold _getLocalStorage. now rewrite bind_read, Hst.
Qed.

Lemma getLocalStorage_not_JSON (st : state) :
  localStorage st = Some NotJSON -> _getLocalStorage st = Thrown SyntaxError st.
Proof.
  intros Hst. unfold _getLocalStorage. now rewrite bind_read, Hst.
Qed.


(** [_loadMap] makes the map, centered on the position at zoom 13, and
    puts on it a marker for each entry of the log, stopping at the first
    that is [undefined] or [null]. *)
Lemma loadMap_run (latitude longitude : number) (st : state) (l : list value) :
  workouts st = VArray l ->
  (forallb Log.defined l = true
   /\ _loadMap latitude longitude st
      = Returned tt
          (with_map (Some {| center := VArray [VNumber latitude; VNumber longitude];
                             zoom := mapZoomLevel; markers := rev l |}) st))
  \/ (forallb Log.defined l = false
      /\ exists l1 w l2,
          l = l1 ++ w :: l2 /\ forallb Log.defined l1 = true
          /\ Log.defined w = false
          /\ _loadMap latitude longitude st
             = Thrown TypeError
                 (with_map (Some {| center := VArray [VNumber latitude;
                                                     VNumber longitude];
                                    zoom := mapZoomLevel; markers := rev l1 |}) st)).
Proof.
  intros Hws. unfold _loadMap. rewrite bind_write, bind_read.
  cbn [workouts with_map]. rewrite Hws. cbn [elements]. rewrite bind_ret.
  set (lm0 := {| center := _; zoom := _; markers := [] |}).
  destruct (forEach_renderWorkoutMarker_run l (with_map (Some lm0) st) lm0 eq_refl)
    as [[Hall ->] | (Hno & l1 & w & l2 & -> & Hl1 & Hw & ->)].
  - left. split; [exact Hall |]. cbn. now rewrite app_nil_r.
  - right. split; [exact Hno |]. exists l1, w, l2.
    repeat split; try assumption. cbn. now rewrite app_nil_r.
Qed.

Lemma loadMap_not_array (latitude longitude : number) (st : state) :
  Log.is_array (workouts st) = false ->
  _loadMap latitude longitude st
  = Thrown TypeError
      (with_map (Some {| center := VArray [VNumber latitude; VNumber longitude];
                         zoom := mapZoomLevel; markers := [] |}) st).
Proof.
  intros Harr. unfold _loadMap. rewrite bind_write, bind_read.
  cbn [workouts with_map]. now destruct (workouts st).
Qed.

Section Host.

Variable Number : string -> number.
Variable LocalTZA : Z -> Z.

(** Where the last part of [_newWorkout] can end: before the push, after
    it, after the list item, or with the entry logged. *)
Lemma log_final (w : value) (st : state) :
  let final := final_state
                 ((push w ;;; _renderWorkout w ;;; _renderWorkoutMarker w ;;;
                   _hideForm ;;; _setLocalStorage) st) in
  (Log.is_array (workouts st) = false /\ final = st)
  \/ exists l,
      workouts st = VArray l
      /\ (final = with_workouts (VArray (l ++ [w])) st
          \/ final = with_list_items (w :: list_items st)
                       (with_workouts (VArray (l ++ [w])) st)
          \/ exists lm, map st = Some lm /\ final = Log.logged w l lm st).
Proof.
  intros final. unfold final. clear final.
  destruct (Log.is_array (workouts st)) eqn:Harr;
    [| left; now rewrite (bind_Thrown _ _ _ _ _ (push_other w st Harr))].
  destruct (workouts st) as [| | | | | |l|] eqn:Hws; try discriminate.
  right. exists l. split; [reflexivity |].
  rewrite (bind_Returned _ _ _ _ _ (push_array w st l Hws)).
  set (st1 := with_workouts (VArray (l ++ [w])) st).
  pose proof (renderWorkout_run w st1) as E.
  destruct (renderable w) eqn:Hw;
    [| left; now rewrite (bind_Thrown _ _ _ _ _ E)].
  rewrite (bind_Returned _ _ _ _ _ E). right.
  set (st2 := with_list_items (w :: list_items st1) st1).
  destruct (map st) as [lm|] eqn:Hm.
  - pose proof (renderWorkoutMarker_run w st2 lm Hm) as E'.
    rewrite (renderable_defined w Hw) in E'.
    rewrite (bind_Returned _ _ _ _ _ E'). right. exists lm. split; [reflexivity |].
    cbn. destruct st. cbn in *. subst. reflexivity.
  - left. now rewrite (bind_Thrown _ _ _ _ _ (renderWorkoutMarker_no_map w st2 Hm)).
Qed.

(** Where [_newWorkout] can end. *)
Lemma newWorkout_final (c : Entry.clock) (st : state) :
  final_state (_newWorkout Number LocalTZA c st) = st
  \/ final_state (_newWorkout Number LocalTZA c st) = Log.refused st
  \/ exists w,
      final_state (_newWorkout Number LocalTZA c st)
      = final_state
          ((push w ;;; _renderWorkout w ;;; _renderWorkoutMarker w ;;;
            _hideForm ;;; _setLocalStorage) st).
Proof.
  unfold _newWorkout. rewrite !bind_read.
  destruct (mapEvent st) as [ll|]; [| now left].
  unfold bind at 1.
  destruct (inputType (form st) =? "running")%string.
  - destruct (_ || _); cbn -[bind push _renderWorkout _renderWorkoutMarker
                                _hideForm _setLocalStorage];
      [right; now left |].
    unfold bind at 1.
    destruct (inputType (form st) =? "cycling")%string.
    + destruct (_ || _); cbn -[bind push _renderWorkout _renderWorkoutMarker
                                  _hideForm _setLocalStorage];
        [right; now left | right; right; eexists; reflexivity].
    + cbn -[bind push _renderWorkout _renderWorkoutMarker _hideForm _setLocalStorage].
      right; right; eexists; reflexivity.
  - cbn -[bind push _renderWorkout _renderWorkoutMarker _hideForm _setLocalStorage].
    unfold bind at 1.
    destruct (inputType (form st) =? "cycling")%string.
    + destruct (_ || _); cbn -[bind push _renderWorkout _renderWorkoutMarker
                                  _hideForm _setLocalStorage];
        [right; now left | right; right; eexists; reflexivity].
    + cbn -[bind push _renderWorkout _renderWorkoutMarker _hideForm _setLocalStorage].
      right; right; eexists; reflexivity.
Qed.

End Host.

End PageFacts.

(** ** Loading the page *)

Import Page PageFacts MonadFacts.




(** ** The map *)



(** ** What a session keeps *)

Lemma session_cons (Number : string -> number) (LocalTZA : Z -> Z)
  (ev : event) (evs : list event) (st : state) :
  session Number LocalTZA (ev :: evs) st
  = session Number LocalTZA evs (dispatch Number LocalTZA ev st).
Proof. reflexivity. Qed.

(** X4: when the constructor did not register its listeners, nothing that
    happens on the page changes the log, the list or the stored snapshot,
    and the listeners stay unregistered: submissions and clicks on the list
    are not handled. *)
Theorem unregistered_listeners_ignore_events
  (Number : string -> number) (LocalTZA : Z -> Z)
  (evs : list event) (st : state) :
  listening st = false ->
  listening (session Number LocalTZA evs st) = false
  /\ workouts (session Number LocalTZA evs st) = workouts st
  /\ list_items (session Number LocalTZA evs st) = list_items st
  /\ localStorage (session Number LocalTZA evs st) = localStorage st.
Proof.
  revert st. induction evs as [|ev evs IH]; intros st Hl; [now repeat split |].
  rewrite !session_cons.
  assert (listening (dispatch Number LocalTZA ev st) = false
          /\ workouts (dispatch Number LocalTZA ev st) = workouts st
          /\ list_items (dispatch Number LocalTZA ev st) = list_items st
          /\ localStorage (dispatch Number LocalTZA ev st) = localStorage st)
    as (H1 & H2 & H3 & H4).
  { destruct ev as [latitude longitude| |ll|which text|c|target]; unfold dispatch;
      rewrite ?Hl; try (now repeat split).
    - destruct (locating st); [| now repeat split].
      destruct (SessionFacts.loadMap_frame latitude longitude (with_locating false st))
        as [lm ->].
      now repeat split.
    - destruct (locating st); now repeat split.
    - destruct (map st); now repeat split. }
  destruct (IH _ H1) as (G1 & G2 & G3 & G4).
  rewrite G1, G2, G3, G4. now repeat split.
Qed.

Lemma unregistered_listeners_ignore_events_witness :
  let st := load true Sample.blank (Some NotJSON) in
  let evs := [PositionFound (Num.of_Z 40) (Num.of_Z (-74)); MapClicked Sample.here]
               ++ Sample.fill_running ++ [FormSubmitted (Sample.at_time Sample.t0)] in
  listening (session Sample.Number Sample.UTC evs st) = false
  /\ workouts (session Sample.Number Sample.UTC evs st) = workouts st
  /\ list_items (session Sample.Number Sample.UTC evs st) = list_items st
  /\ localStorage (session Sample.Number Sample.UTC evs st) = localStorage st.
Proof.
  intros st evs.
  apply (unregistered_listeners_ignore_events Sample.Number Sample.UTC evs st).
  reflexivity.
Defined.

(** One event adds at most one entry to the end of the log, and only a
    submission adds one. *)
Lemma dispatch_appends (Number : string -> number) (LocalTZA : Z -> Z)
  (ev : event) (st : state) (l : list value) :
  workouts st = VArray l ->
  exists l',
    workouts (dispatch Number LocalTZA ev st) = VArray (l ++ l')
    /\ (List.length l' <= submissions [ev])%nat.
Proof.
  intros Hws.
  assert (exists l', VArray l = VArray (l ++ l')
                     /\ (List.length l' <= submissions [ev])%nat) as Hsame
      by (exists []; rewrite app_nil_r; split; [reflexivity | apply Nat.le_0_l]).
  destruct ev as [latitude longitude| |ll|which text|c|target]; unfold dispatch.
  - destruct (locating st); [| now rewrite Hws].
    destruct (SessionFacts.loadMap_frame latitude longitude (with_locating false st))
      as [lm ->].
    cbn. now rewrite Hws.
  - destruct (locating st); cbn; now rewrite Hws.
  - destruct (map st); cbn; now rewrite Hws.
  - cbn. now rewrite Hws.
  - destruct (listening st); [| now rewrite Hws].
    destruct (newWorkout_final Number LocalTZA c st) as [-> | [-> | [w ->]]];
      try (cbn; now rewrite Hws).
    destruct (log_final w st) as [[_ ->] | (l0 & Hws0 & Hfinal)];
      [now rewrite Hws |].
    rewrite Hws in Hws0. injection Hws0 as <-.
    exists [w]. split; [| cbn; apply Nat.le_refl].
    destruct Hfinal as [-> | [-> | (lm & _ & ->)]]; reflexivity.
  - destruct (listening st); [| now rewrite Hws].
    destruct (SessionFacts.centerMapOnPopup_cases target st)
      as [-> | (lm & co & _ & ->)]; cbn; now rewrite Hws.
Qed.

(** X5: the log only grows, at its end, and by no more entries than forms were
    submitted: whatever happens on the page, the entries there were are
    still there, in their places. *)
Theorem log_only_grows
  (Number : string -> number) (LocalTZA : Z -> Z)
  (evs : list event) (st : state) (l : list value) :
  workouts st = VArray l ->
  exists l',
    workouts (session Number LocalTZA evs st) = VArray (l ++ l')
    /\ (List.length l' <= submissions evs)%nat.
Proof.
  revert st l. induction evs as [|ev evs IH]; intros st l Hws.
  - exists []. rewrite app_nil_r. split; [exact Hws | apply Nat.le_0_l].
  - rewrite session_cons.
    destruct (dispatch_appends Number LocalTZA ev st l Hws) as (l1 & H1 & Hn1).
    destruct (IH _ _ H1) as (l2 & H2 & Hn2).
    exists (l1 ++ l2). rewrite app_assoc. split; [exact H2 |].
    rewrite length_app.
    change (submissions (ev :: evs)) with (submissions ([ev] ++ evs)).
    unfold submissions in *. rewrite filter_app, length_app. lia.
Qed.

Lemma log_only_grows_witness :
  exists l',
    workouts (session Sample.Number Sample.UTC
                (Sample.fill_cycling ++ [FormSubmitted (Sample.at_time (Sample.t0 + 5000))])
                Sample.one_run)
    = VArray ([Sample.the_run] ++ l')
    /\ (List.length l' <= 1)%nat.
Proof.
  apply (log_only_grows Sample.Number Sample.UTC
           (Sample.fill_cycling ++ [FormSubmitted (Sample.at_time (Sample.t0 + 5000))])
           Sample.one_run [Sample.the_run]).
  vm_compute. reflexivity.
Defined.

(** Loading shows nothing that is not in the log. *)
Lemma load_shown_are_logged (geolocation : bool) (f : form_fields)
  (stored : option slot) :
  shown_are_logged (load geolocation f stored).
Proof.
  assert (forall st, map st = None -> list_items st = [] ->
                     shown_are_logged
                       (final_state
                          ((_getLocalStorage ;;; write (with_listening true)) st)))
    as Hmain.
  { intros st Hm Hli.
    assert (shown_are_logged st) as Hst
        by (split; [rewrite Hli; apply incl_nil_l | intros lm; congruence]).
    destruct (localStorage st) as [[j|]|] eqn:Hstored.
    - destruct (JS.truthy (JSON.parse j)) eqn:Htruthy.
      + destruct (Log.is_array (JSON.parse j)) eqn:Harr.
        * destruct (JSON.parse j) as [| | | | | |l|] eqn:Hj; try discriminate.
          destruct (forEach_renderWorkout_run l (with_workouts (VArray l) st))
            as [[_ E] | (_ & l1 & w & l2 & Hl & _ & _ & E)];
            rewrite <- (getLocalStorage_array st j l Hstored Hj) in E.
          -- rewrite (bind_Returned _ _ _ _ _ E). cbn.
             split; cbn; [| intros lm; congruence].
             rewrite Hli, app_nil_r. intros x Hx. now apply in_rev.
          -- rewrite (bind_Thrown _ _ _ _ _ E).
             split; cbn; [| intros lm; congruence].
             rewrite Hli, app_nil_r, Hl. intros x Hx. apply in_rev in Hx.
             apply in_or_app. now left.
        * rewrite (bind_Thrown _ _ _ _ _
                     (getLocalStorage_not_array st j Hstored Htruthy Harr)).
          split; cbn; [rewrite Hli; apply incl_nil_l | intros lm; congruence].
      + now rewrite (bind_Returned _ _ _ _ _
                       (getLocalStorage_falsy st j Hstored Htruthy)).
    - now rewrite (bind_Thrown _ _ _ _ _ (getLocalStorage_not_JSON st Hstored)).
    - now rewrite (bind_Returned _ _ _ _ _ (getLocalStorage_missing st Hstored)). }
  unfold load, constructor, _getPosition. destruct geolocation.
  - rewrite bind_write. now apply Hmain.
  - rewrite bind_ret. now apply Hmain.
Qed.

Lemma dispatch_shown_are_logged (Number : string -> number) (LocalTZA : Z -> Z)
  (ev : event) (st : state) :
  shown_are_logged st -> shown_are_logged (dispatch Number LocalTZA ev st).
Proof.
  intros [Hli Hmk].
  destruct ev as [latitude longitude| |ll|which text|c|target]; unfold dispatch.
  - destruct (locating st); [| now split].
    destruct (Log.is_array (workouts st)) eqn:Harr.
    + destruct (workouts st) as [| | | | | |l|] eqn:Hws; try discriminate.
      destruct (loadMap_run latitude longitude (with_locating false st) l Hws)
        as [[_ ->] | (_ & l1 & w & l2 & Hl & _ & _ & ->)];
        split; cbn; rewrite ?Hws; try exact Hli; cbn in Hli;
        intros lm [= <-]; cbn; intros x Hx; apply in_rev in Hx; [exact Hx |].
      rewrite Hl. apply in_or_app. now left.
    + rewrite (loadMap_not_array latitude longitude (with_locating false st) Harr).
      split; cbn; [exact Hli |]. intros lm [= <-]. apply incl_nil_l.
  - destruct (locating st); now split.
  - assert (shown_are_logged (final_state (_showForm ll st))) as Hshow
        by (split; [exact Hli | exact Hmk]).
    destruct (map st) eqn:Hm; [exact Hshow |].
    split; [exact Hli | intros lm Hlm; congruence].
  - now split.
  - destruct (listening st); [| now split].
    destruct (newWorkout_final Number LocalTZA c st) as [-> | [-> | [w ->]]];
      try (now split).
    destruct (log_final w st) as [[_ ->] | (l & Hws & Hfinal)]; [now split |].
    rewrite Hws in Hli, Hmk. cbn in Hli, Hmk.
    destruct Hfinal as [-> | [-> | (lm & Hm & ->)]]; split; cbn.
    + now apply incl_appl.
    + intros lm Hm. apply incl_appl. now apply Hmk.
    + apply incl_cons; [apply in_or_app; right; now left | now apply incl_appl].
    + intros lm Hm. apply incl_appl. now apply Hmk.
    + apply incl_cons; [apply in_or_app; right; now left | now apply incl_appl].
    + intros lm' [= <-]. cbn.
      apply incl_cons; [apply in_or_app; right; now left |].
      apply incl_appl. now apply Hmk.
  - destruct (listening st); [| now split].
    destruct (SessionFacts.centerMapOnPopup_cases target st)
      as [-> | (lm & co & Hm & ->)]; [now split |].
    split; cbn; [exact Hli |]. intros lm' [= <-]. cbn. now apply Hmk.
Qed.

(** X6: in every state of every visit, each item of the rendered list and each
    marker of the map is an entry of the log. *)
Theorem shown_entries_are_logged
  (Number : string -> number) (LocalTZA : Z -> Z)
  (geolocation : bool) (f : form_fields) (stored : option slot) (evs : list event) :
  shown_are_logged (session Number LocalTZA evs (load geolocation f stored)).
Proof.
  assert (forall st, shown_are_logged st ->
                     shown_are_logged (session Number LocalTZA evs st)) as Hall.
  { induction evs as [|ev evs IH]; intros st Hst; [exact Hst |].
    rewrite session_cons. apply IH. now apply dispatch_shown_are_logged. }
  apply Hall, load_shown_are_logged.
Qed.

(** ** The text of an identifier *)

Module DigitFacts.

Import Str StrFacts.

Lemma lsd_value_bound (ds : list Z) :
  is_decimal ds -> 0 <= lsd_value ds < 10 ^ Z.of_nat (List.length ds).
Proof.
  induction 1 as [|d ds Hd _ IH]; [cbn; lia |].
  cbn [lsd_value List.length]. rewrite Nat2Z.inj_succ, Z.pow_succ_r by lia. lia.
Qed.

(** Digits of a given length are determined by the number they denote. *)
Lemma lsd_value_inj (a b : list Z) :
  is_decimal a -> is_decimal b -> List.length a = List.length b ->
  lsd_value a = lsd_value b -> a = b.
Proof.
  intros Ha. revert b. induction Ha as [|d a Hd _ IH]; intros b Hb Hlen Hval.
  - destruct b; [reflexivity | discriminate].
  - destruct b as [|e b]; [discriminate |].
    inversion Hb as [|? ? He Hb']; subst.
    cbn [lsd_value] in Hval. cbn [List.length] in Hlen.
    assert (d = e) by lia. subst e.
    f_equal. apply IH; [assumption | lia | lia].
Qed.

Lemma lsd_fuel_length_ge (fuel : nat) (n : Z) (k : nat) :
  0 <= n < 2 ^ (Z.of_nat fuel + 1) -> 10 ^ Z.of_nat k <= n ->
  (k + 1 <= List.length (lsd_fuel fuel n))%nat.
Proof.
  revert n k. induction fuel as [|fuel IH]; intros n k Hn Hk.
  - destruct k as [|k]; [cbn; lia |].
    rewrite Nat2Z.inj_succ, Z.pow_succ_r in Hk by lia.
    assert (0 < 10 ^ Z.of_nat k) by (apply Z.pow_pos_nonneg; lia).
    cbn in Hn. lia.
  - destruct k as [|k]; [cbn; lia |].
    rewrite Nat2Z.inj_succ, Z.pow_succ_r in Hk by lia.
    assert (0 < 10 ^ Z.of_nat k) by (apply Z.pow_pos_nonneg; lia).
    assert (10 ^ Z.of_nat k <= n / 10) as Hq by (apply Z.div_le_lower_bound; lia).
    cbn [lsd_fuel]. destruct (n / 10 =? 0) eqn:E; [apply Z.eqb_eq in E; lia |].
    cbn [List.length].
    assert (k + 1 <= List.length (lsd_fuel fuel (n / 10)))%nat; [| lia].
    apply IH; [| exact Hq]. split; [lia |].
    replace (Z.of_nat (S fuel) + 1) with (Z.succ (Z.of_nat fuel + 1)) in Hn by lia.
    rewrite Z.pow_succ_r in Hn by lia.
    apply Z.div_lt_upper_bound; lia.
Qed.

Lemma lsd_fuel_length_le (fuel : nat) (n : Z) (k : nat) :
  0 <= n < 10 ^ Z.of_nat (S k) -> (List.length (lsd_fuel fuel n) <= S k)%nat.
Proof.
  revert n k. induction fuel as [|fuel IH]; intros n k Hn.
  - cbn. destruct (n / 10 =? 0); cbn; lia.
  - cbn [lsd_fuel]. destruct (n / 10 =? 0) eqn:E; [cbn; lia |].
    apply Z.eqb_neq in E. destruct k as [|k].
    + cbn in Hn. exfalso. apply E. apply Z.div_small. lia.
    + cbn [List.length].
      assert (List.length (lsd_fuel fuel (n / 10)) <= S k)%nat; [| lia].
      apply IH. split; [apply Z.div_pos; lia |].
      rewrite (Nat2Z.inj_succ (S k)), Z.pow_succ_r in Hn by lia.
      apply Z.div_lt_upper_bound; lia.
Qed.

Lemma lsd_value_zeros (ds : list Z) (k : nat) :
  lsd_value (ds ++ repeat 0 k) = lsd_value ds.
Proof.
  induction ds as [|d ds IH]; cbn [app lsd_value].
  - induction k as [|k IHk]; cbn [repeat lsd_value]; lia.
  - now rewrite IH.
Qed.

Lemma is_decimal_zeros (ds : list Z) (k : nat) :
  is_decimal ds -> is_decimal (ds ++ repeat 0 k).
Proof.
  intros H. apply Forall_app. split; [exact H |].
  induction k; constructor; [lia | assumption].
Qed.

(** The low ten digits of a number of at least ten digits are the ten
    digits, zeros in front, of its remainder by 10^10. *)
Lemma firstn_lsd (t : Z) :
  1000000000 <= t ->
  firstn 10 (lsd t)
  = lsd (t mod 10000000000)
      ++ repeat 0 (10 - List.length (lsd (t mod 10000000000))).
Proof.
  intros Ht.
  assert (10 <= List.length (lsd t))%nat as Hlong.
  { unfold lsd. apply (lsd_fuel_length_ge _ t 9); [| cbn; lia].
    rewrite Z2Nat.id by apply Z.log2_nonneg.
    pose proof (Z.log2_spec t ltac:(lia)) as [_ H].
    replace (Z.log2 t + 1) with (Z.succ (Z.log2 t)) by lia. lia. }
  pose proof (Z.mod_pos_bound t 10000000000 ltac:(lia)) as Hm.
  assert (List.length (lsd (t mod 10000000000)) <= 10)%nat as Hshort
      by (apply (lsd_fuel_length_le _ _ 9); cbn; lia).
  apply lsd_value_inj.
  - apply is_decimal_firstn, lsd_decimal.
  - apply is_decimal_zeros, lsd_decimal.
  - rewrite length_firstn, length_app, repeat_length. lia.
  - rewrite lsd_value_firstn by apply lsd_decimal.
    rewrite lsd_value_zeros, !lsd_value_lsd by lia. reflexivity.
Qed.

Lemma new_id_digits (t : Z) :
  0 <= t ->
  Entry.new_id t = of_chars (rev (List.map digit_char (firstn 10 (lsd t)))).
Proof.
  intros Ht. unfold Entry.new_id, Z_toString.
  assert ((t <? 0) = false) as -> by (apply Z.ltb_ge; lia).
  exact (slice_digits t 9).
Qed.

End DigitFacts.

(** X7: when the clock reads at least 10^9 ms, as it does at any time after
    12 January 1970, the id is a text of exactly ten digits: the remainder of the reading by
    10^10, with zeros in front. Two such readings give the same id exactly
    when they leave the same remainder. *)
Theorem new_id_is_remainder (t1 t2 : Z) :
  1000000000 <= t1 -> 1000000000 <= t2 ->
  Entry.new_id t1 = Str.pad 10 (t1 mod 10000000000)
  /\ String.length (Entry.new_id t1) = 10%nat
  /\ (Entry.new_id t1 = Entry.new_id t2
      <-> t1 mod 10000000000 = t2 mod 10000000000).
Proof.
  intros H1 H2.
  assert (forall t, 1000000000 <= t ->
                    Entry.new_id t = Str.pad 10 (t mod 10000000000)) as Hpad.
  { intros t Ht. rewrite DigitFacts.new_id_digits by lia.
    now rewrite (DigitFacts.firstn_lsd t Ht). }
  split; [now apply Hpad |]. split.
  - rewrite DigitFacts.new_id_digits by lia.
    rewrite StrFacts.length_of_chars, length_rev, length_map.
    rewrite (DigitFacts.firstn_lsd t1 H1), length_app, repeat_length.
    pose proof (Z.mod_pos_bound t1 10000000000 ltac:(lia)) as Hm.
    assert (List.length (Str.lsd (t1 mod 10000000000)) <= 10)%nat
        by (apply (DigitFacts.lsd_fuel_length_le _ _ 9); cbn; lia).
    lia.
  - split.
    + intros Heq. unfold Entry.new_id, Str.Z_toString in Heq.
      assert ((t1 <? 0) = false) as E1 by (apply Z.ltb_ge; lia).
      assert ((t2 <? 0) = false) as E2 by (apply Z.ltb_ge; lia).
      rewrite E1, E2 in Heq.
      apply (StrFacts.slice_digits_inj t1 t2 9) in Heq; [exact Heq | lia | lia].
    + intros Heq. now rewrite (Hpad t1 H1), (Hpad t2 H2), Heq.
Qed.

Lemma new_id_is_remainder_witness :
  Entry.new_id 1700000000123 = Str.pad 10 (1700000000123 mod 10000000000)
  /\ String.length (Entry.new_id 1700000000123) = 10%nat
  /\ (Entry.new_id 1700000000123 = Entry.new_id 1710000000123
      <-> 1700000000123 mod 10000000000 = 1710000000123 mod 10000000000).
Proof.
  apply (new_id_is_remainder 1700000000123 1710000000123); lia.
Defined.

(** ** A snapshot read and written again *)

Module StableFacts.

Import JSON Snapshot JSONFacts.

Lemma tidy_array (l : list value) : tidy (VArray l) <-> Forall tidy l.
Proof.
  induction l as [|x l IH]; cbn.
  - split; [constructor | trivial].
  - split.
    + intros [Hx Hl]. constructor; [exact Hx | now apply IH].
    + intros H. inversion H; subst. split; [assumption | now apply IH].
Qed.

Lemma tidy_object (ps : props) :
  tidy (VObject ps)
  <-> NoDup (List.map fst ps)
      /\ (forall k, In k (List.map fst ps) -> JS.array_index k = None)
      /\ Forall (fun kv => tidy (snd kv)) ps.
Proof.
  cbn. split; intros (Hnd & Hix & Hall); repeat split; try assumption;
    clear Hnd Hix.
  - induction ps as [|kv ps IH]; [constructor |].
    destruct Hall as [Hx Hl]. constructor; [exact Hx | now apply IH].
  - induction Hall as [|kv ps Hx _ IH]; [trivial | now split].
Qed.

Lemma member_NoDup (ps : props) :
  NoDup (List.map fst ps) -> NoDup (List.map fst (List.flat_map member ps)).
Proof.
  induction ps as [|[k v] ps IH]; cbn; [trivial |].
  intros Hnd. inversion Hnd as [|? ? Hnotin Hnd']; subst.
  unfold member at 1. cbn. destruct (stringify v) as [j|]; cbn; [| now apply IH].
  constructor; [| now apply IH].
  intros Hin. apply Hnotin. now apply member_keys.
Qed.

(** What was written is written the same after it is read. *)
Lemma stringify_parse (v : value) :
  tidy v -> forall j, stringify v = Some j -> stringify (parse j) = Some j.
Proof.
  induction v as [| |b|x|s|t|l IH|ps IH] using value_induction; intros Hv j Hj.
  - discriminate.
  - now injection Hj as <-.
  - now injection Hj as <-.
  - cbn in Hj. injection Hj as <-. destruct x as [[]| | |]; reflexivity.
  - now injection Hj as <-.
  - cbn in Hj. injection Hj as <-. now destruct (DateTime.in_range t).
  - rewrite stringify_array in Hj. injection Hj as <-.
    rewrite tidy_array in Hv. cbn [parse]. rewrite stringify_array.
    do 2 f_equal. rewrite !map_map. apply map_ext_in. intros x Hx.
    rewrite Forall_forall in IH, Hv. specialize (IH x Hx (Hv x Hx)).
    unfold item at 2 3. destruct (stringify x) as [jx|].
    + unfold item. now rewrite (IH jx eq_refl).
    + reflexivity.
  - rewrite stringify_object in Hj. injection Hj as <-.
    rewrite tidy_object in Hv. destruct Hv as (Hnd & Hix & Hall).
    rewrite parse_object, build_fresh.
    + cbn [app]. rewrite stringify_object. do 2 f_equal.
      clear Hnd Hix. induction ps as [|[k x] ps IHps]; [reflexivity |].
      inversion IH as [|? ? IHx IHrest]; subst.
      inversion Hall as [|? ? Hx Hrest]; subst. cbn in IHx, Hx.
      cbn [List.flat_map]. unfold member at 2 4. cbn [fst snd].
      destruct (stringify x) as [jx|].
      * cbn [app List.map List.flat_map fst snd]. unfold member at 1. cbn [fst snd].
        rewrite (IHx Hx jx eq_refl). cbn [app]. f_equal. now apply IHps.
      * cbn [app]. now apply IHps.
    + now apply member_NoDup.
    + intros k Hk. apply Hix. now apply member_keys.
    + intros k _ [].
Qed.

Lemma entry_keys_tidy (ps : props) :
  List.map fst ps = ["date"; "id"; "coordinates"; "distance"; "duration"; "type";
                     "cadence"; "pace"; "description"]%string
  \/ List.map fst ps = ["date"; "id"; "coordinates"; "distance"; "duration"; "type";
                        "elevation"; "speed"; "description"]%string ->
  Forall (fun kv => tidy (snd kv)) ps ->
  tidy (VObject ps).
Proof.
  intros Hkeys Hall. apply tidy_object. repeat split; [| | exact Hall].
  - destruct Hkeys as [-> | ->];
      repeat (constructor; [cbn; intuition discriminate |]); constructor.
  - intros k Hk.
    destruct Hkeys as [Hkeys | Hkeys]; rewrite Hkeys in Hk; cbn in Hk;
      repeat (destruct Hk as [<- | Hk]; [vm_compute; reflexivity |]);
      contradiction.
Qed.

(** The entries the constructors build are tidy, when the coordinates they
    are given are. *)
Lemma Running_tidy (LocalTZA : Z -> Z) (c : Entry.clock) (coordinates : value)
  (distance duration cadence : number) :
  tidy coordinates ->
  tidy (Entry.Running LocalTZA c coordinates distance duration cadence).
Proof.
  intros Hco. rewrite EntryFacts.Running_props. apply entry_keys_tidy.
  - now left.
  - repeat constructor. exact Hco.
Qed.

Lemma Cycling_tidy (LocalTZA : Z -> Z) (c : Entry.clock) (coordinates : value)
  (distance duration elevation : number) :
  tidy coordinates ->
  tidy (Entry.Cycling LocalTZA c coordinates distance duration elevation).
Proof.
  intros Hco. rewrite EntryFacts.Cycling_props. apply entry_keys_tidy.
  - now right.
  - repeat constructor. exact Hco.
Qed.

End StableFacts.

(** X8: the snapshot does not drift: when the log is an array whose objects
    have distinct property names, none an array index, as the entries the
    constructors build have, then restoring from its snapshot and
    persisting again writes the same snapshot. What a first round trip
    changes, a [Date] to its text, it changes once. *)
Theorem snapshot_does_not_drift (f : form_fields) (st : state) (l : list value) :
  workouts st = VArray l ->
  tidy (VArray l) ->
  localStorage (persist (restore (next_visit f (persist st))))
  = localStorage (persist st).
Proof.
  intros Hws Htidy.
  assert (localStorage (persist st) = Some (snapshot (VArray l))) as Hfirst
      by (unfold persist; cbn; now rewrite Hws).
  rewrite Hfirst. unfold persist at 1. cbn [final_state _setLocalStorage write
                                             localStorage with_localStorage].
  rewrite (roundtrip_workouts f st l Hws). f_equal.
  unfold snapshot.
  pose proof (StableFacts.stringify_parse (VArray l) Htidy
                (JSON.JArray (List.map Snapshot.item l))
                (JSONFacts.stringify_array l)) as H.
  cbn [JSON.parse] in H. rewrite map_map in H.
  now rewrite H, JSONFacts.stringify_array.
Qed.

Lemma snapshot_does_not_drift_witness :
  localStorage (persist (restore (next_visit Sample.blank (persist Sample.two_entries))))
  = localStorage (persist Sample.two_entries).
Proof.
  apply (snapshot_does_not_drift Sample.blank Sample.two_entries
           [Sample.the_run; Sample.late_ride]).
  - vm_compute. reflexivity.
  - apply StableFacts.tidy_array.
    apply Forall_cons;
      [exact (StableFacts.Running_tidy Sample.UTC (Sample.at_time Sample.t0)
                (coordinates_of Sample.here) _ _ _ (conj I (conj I I))) |].
    apply Forall_cons;
      [exact (StableFacts.Cycling_tidy Sample.UTC
                (Sample.at_time (Sample.t0 + 10000000000))
                (coordinates_of Sample.here) _ _ _ (conj I (conj I I))) |].
    apply Forall_nil.
Defined.

(** ** A metric that is not finite *)

(** A field of a record, written and read back. *)
Lemma get_roundtrip (ps : props) (k : string) :
  NoDup (List.map fst ps) ->
  JS.get (JSON.parse (Snapshot.item (VObject ps))) k
  = Some match JS.lookup k ps with
         | Some x => match JSON.stringify x with
                     | Some j => JSON.parse j
                     | None => VUndefined
                     end
         | None => VUndefined
         end.
Proof.
  intros Hnd. unfold Snapshot.item.
  rewrite JSONFacts.stringify_object, JSONFacts.parse_object. cbn [JS.get].
  rewrite JSONFacts.lookup_roundtrip by assumption.
  destruct (JS.lookup k ps) as [x|]; [| reflexivity].
  now destruct (JSON.stringify x).
Qed.

Lemma forallb_renderable_last (l : list value) (e : value) :
  renderable e = false -> forallb renderable (l ++ [e]) = false.
Proof.
  intros He. rewrite forallb_app. cbn. rewrite He. now rewrite andb_false_r.
Qed.

(** A visit that finds a stored array with a record that cannot be
    rendered does not register its listeners. *)
Lemma load_unrenderable (geolocation : bool) (f : form_fields) (j : JSON.json)
  (l : list value) :
  JSON.parse j = VArray l ->
  forallb renderable l = false ->
  listening (load geolocation f (Some (Document j))) = false.
Proof.
  intros Hj Hno.
  assert (forall st, listening st = false -> localStorage st = Some (Document j) ->
                     listening (final_state
                                  ((_getLocalStorage ;;; write (with_listening true)) st))
                     = false) as Hmain.
  { intros st Hl Hst.
    destruct (forEach_renderWorkout_run l (with_workouts (VArray l) st))
      as [[Hall _] | (_ & l1 & w & l2 & _ & _ & _ & E)]; [congruence |].
    rewrite <- (getLocalStorage_array st j l Hst Hj) in E.
    now rewrite (bind_Thrown _ _ _ _ _ E). }
  unfold load, constructor, _getPosition. destruct geolocation.
  - rewrite bind_write. now apply Hmain.
  - rewrite bind_ret. now apply Hmain.
Qed.

(** X9: the test of a submission lets through a distance and a duration whose
    quotient is not finite. The entry is then logged and persisted with
    [null] for its pace or speed, and the next visit that finds this
    snapshot fails on its list item: the constructor does not register its
    listeners. *)
Theorem metric_not_finite_stops_next_visit
  (Number : string -> number) (LocalTZA : Z -> Z) (c : Entry.clock)
  (st : state) (ll : latlng) (lm : leaflet) (l : list value)
  (geolocation : bool) (f : form_fields) :
  mapEvent st = Some ll -> map st = Some lm -> workouts st = VArray l ->
  (inputType (form st) = "running"%string
   /\ running_accepted Number st = true
   /\ Num.isFinite (Num.div (duration_of Number st) (distance_of Number st)) = false)
  \/ (inputType (form st) = "cycling"%string
      /\ cycling_accepted Number st = true
      /\ Num.isFinite (Num.div (distance_of Number st)
                         (Num.div (duration_of Number st) Num.sixty)) = false) ->
  exists st',
    _newWorkout Number LocalTZA c st = Returned tt st'
    /\ List.length (entries (workouts st')) = S (List.length l)
    /\ listening (load geolocation f (localStorage st')) = false.
Proof.
  intros Hev Hm Hws Hkind.
  assert (forall e ps,
             e = VObject ps -> NoDup (List.map fst ps) ->
             renderable (JSON.parse (Snapshot.item e)) = false ->
             listening (load geolocation f
                          (localStorage (logged e l lm st))) = false) as Hstop.
  { intros e ps -> Hnd He.
    apply (load_unrenderable geolocation f _
             (List.map (fun x => JSON.parse (Snapshot.item x)) (l ++ [VObject ps]))).
    - cbn [JSON.parse]. now rewrite map_map.
    - rewrite map_app. cbn [List.map]. now apply forallb_renderable_last. }
  destruct Hkind as [(Hty & Hok & Hinf) | (Hty & Hok & Hinf)].
  - eexists. split;
      [apply (AppFacts.newWorkout_running_logged _ _ _ _ ll lm l); assumption |].
    split; [cbn; rewrite length_app; cbn; lia |].
    eapply Hstop; [apply EntryFacts.Running_props | |].
    + cbn. repeat (constructor; [cbn; intuition discriminate |]). constructor.
    + unfold renderable. rewrite EntryFacts.Running_props.
      rewrite !get_roundtrip
        by (cbn; repeat (constructor; [cbn; intuition discriminate |]); constructor).
      cbn [JS.lookup String.eqb Ascii.eqb Bool.eqb JSON.stringify JSON.parse
             JS.is_string].
      now rewrite Hinf.
  - eexists. split;
      [apply (AppFacts.newWorkout_cycling_logged _ _ _ _ ll lm l); assumption |].
    split; [cbn; rewrite length_app; cbn; lia |].
    eapply Hstop; [apply EntryFacts.Cycling_props | |].
    + cbn. repeat (constructor; [cbn; intuition discriminate |]). constructor.
    + unfold renderable. rewrite EntryFacts.Cycling_props.
      rewrite !get_roundtrip
        by (cbn; repeat (constructor; [cbn; intuition discriminate |]); constructor).
      cbn [JS.lookup String.eqb Ascii.eqb Bool.eqb JSON.stringify JSON.parse
             JS.is_string].
      now rewrite Hinf.
Qed.

Lemma metric_not_finite_stops_next_visit_witness :
  exists st',
    _newWorkout Sample.Number_wide Sample.UTC (Sample.at_time Sample.t0)
      Sample.fastest_ride_typed = Returned tt st'
    /\ List.length (entries (workouts st')) = 1%nat
    /\ listening (load true Sample.blank (localStorage st')) = false.
Proof.
  apply (metric_not_finite_stops_next_visit Sample.Number_wide Sample.UTC
           (Sample.at_time Sample.t0) Sample.fastest_ride_typed Sample.here
           {| center := VArray [VNumber (Num.of_Z 40); VNumber (Num.of_Z (-74))];
              zoom := 13; markers := [] |} [] true Sample.blank).
  - vm_compute. reflexivity.
  - vm_compute. reflexivity.
  - vm_compute. reflexivity.
  - right. repeat split; vm_compute; reflexivity.
Defined.

(** ** The label *)

Lemma month_day_bounds (t : Z) :
  0 <= DateTime.MonthFromTime t <= 11 /\ 1 <= DateTime.DateFromTime t <= 31.
Proof.
  unfold DateTime.MonthFromTime, DateTime.DateFromTime, DateTime.civil_from_days.
  cbv zeta. set (z := t / DateTime.msPerDay + 719468).
  set (doe := z - z / 146097 * 146097).
  assert (0 <= doe < 146097) as Hdoe
      by (unfold doe; pose proof (Z.div_mod z 146097 ltac:(lia));
          pose proof (Z.mod_pos_bound z 146097 ltac:(lia)); lia).
  set (yoe := (doe - doe / 1460 + doe / 36524 - doe / 146096) / 365).
  set (doy := doe - (365 * yoe + yoe / 4 - yoe / 100)).
  assert (0 <= doy <= 365) as Hdoy
      by (unfold doy, yoe; Z.div_mod_to_equations; lia).
  set (mp := (5 * doy + 2) / 153).
  assert (0 <= mp <= 11 /\ 1 <= doy - (153 * mp + 2) / 5 + 1 <= 31) as [Hmp Hd]
      by (unfold mp; Z.div_mod_to_equations; lia).
  cbn [fst snd]. destruct (mp <? 10) eqn:E;
    [apply Z.ltb_lt in E | apply Z.ltb_ge in E]; lia.
Qed.

(** X10: the label of an entry is its kind, capitalized, then [on], the name of
    one of the twelve months and a day of the month from 1 to 31: the table
    of months is never read out of its bounds. *)
Theorem label_names_a_month
  (LocalTZA : Z -> Z) (c : Entry.clock) (coordinates : value)
  (distance duration x : number) :
  exists month day,
    In month Entry.months /\ 1 <= day <= 31
    /\ JS.get (Entry.Running LocalTZA c coordinates distance duration x) "description"
       = Some (VString ("Running on " ++ month ++ " " ++ Str.Z_toString day)%string)
    /\ JS.get (Entry.Cycling LocalTZA c coordinates distance duration x) "description"
       = Some (VString ("Cycling on " ++ month ++ " " ++ Str.Z_toString day)%string).
Proof.
  set (local := Entry.Date_new c + LocalTZA (Entry.Date_new c)).
  destruct (month_day_bounds local) as [Hm Hd].
  exists (nth (Z.to_nat (DateTime.MonthFromTime local)) Entry.months ""%string).
  exists (DateTime.DateFromTime local).
  split; [apply nth_In; cbn; lia |]. split; [exact Hd |].
  split; reflexivity.
Qed.

(** ** A click on the list *)

(** X11: a click on the list, whatever it hits and however it ends, leaves the
    log, the list, the snapshot, the alerts, the form and the recorded map
    click as they are; it makes no map, and on a map it keeps the
    markers. *)
Theorem list_click_changes_view_only (target : option string) (st : state) :
  let st' := final_state (_centerMapOnPopup target st) in
  workouts st' = workouts st
  /\ list_items st' = list_items st
  /\ localStorage st' = localStorage st
  /\ alerts st' = alerts st
  /\ form st' = form st
  /\ mapEvent st' = mapEvent st
  /\ match map st with
     | None => map st' = None
     | Some lm => exists lm', map st' = Some lm' /\ markers lm' = markers lm
     end.
Proof.
  cbv zeta.
  destruct (SessionFacts.centerMapOnPopup_cases target st)
    as [-> | (lm & co & Hm & ->)].
  - repeat split. destruct (map st) as [lm|]; [| reflexivity].
    exists lm. now split.
  - cbn. rewrite Hm. repeat split. eexists. split; reflexivity.
Qed.

(** ** A submission that returns *)

(** X12: when the handler of a submission returns, either it showed the alert
    and changed nothing else, or it logged one renderable entry: the log
    is longer by it, it is first in the list and on the map, the form is
    cleared and hidden, the recorded map click is kept, and the stored
    snapshot is the snapshot of the log. *)
Theorem returned_submission_is_in_sync
  (Number : string -> number) (LocalTZA : Z -> Z) (c : Entry.clock)
  (st st' : state) :
  _newWorkout Number LocalTZA c st = Returned tt st' ->
  st' = with_alerts (positive_number_message :: alerts st) st
  \/ exists l w lm,
      workouts st = VArray l /\ map st = Some lm
      /\ workouts st' = VArray (l ++ [w])
      /\ renderable w = true
      /\ list_items st' = w :: list_items st
      /\ map st' = Some {| center := center lm; zoom := zoom lm;
                           markers := w :: markers lm |}
      /\ form st' = cleared (form st)
      /\ mapEvent st' = mapEvent st
      /\ alerts st' = alerts st
      /\ localStorage st' = Some (snapshot (workouts st')).
Proof.
  intros Hrun.
  destruct (SessionFacts.newWorkout_returned Number LocalTZA c st st' Hrun)
    as [-> | (ll & l & lm & w & _ & Hws & Hm & -> & Hw)]; [now left |].
  right. exists l, w, lm. repeat split; try assumption.
  destruct Hw as [-> | ->]; reflexivity.
Qed.

Lemma returned_submission_is_in_sync_witness :
  Sample.one_run
  = with_alerts (positive_number_message :: alerts Sample.run_typed) Sample.run_typed
  \/ exists l w lm,
      workouts Sample.run_typed = VArray l /\ map Sample.run_typed = Some lm
      /\ workouts Sample.one_run = VArray (l ++ [w])
      /\ renderable w = true
      /\ list_items Sample.one_run = w :: list_items Sample.run_typed
      /\ map Sample.one_run = Some {| center := center lm; zoom := zoom lm;
                                      markers := w :: markers lm |}
      /\ form Sample.one_run = cleared (form Sample.run_typed)
      /\ mapEvent Sample.one_run = mapEvent Sample.run_typed
      /\ alerts Sample.one_run = alerts Sample.run_typed
      /\ localStorage Sample.one_run = Some (snapshot (workouts Sample.one_run)).
Proof.
  apply (returned_submission_is_in_sync Sample.Number Sample.UTC
           (Sample.at_time Sample.t0) Sample.run_typed Sample.one_run).
  vm_compute. reflexivity.
Defined.

(** ** A visit without a map *)

(** X13: without a map, no recorded map click and no pending request for the
    position, as when the host has no geolocation or the position was
    denied, nothing that happens on the page changes anything but the text
    of the form: no entry can be logged in that visit. *)
Theorem no_map_no_entries
  (Number : string -> number) (LocalTZA : Z -> Z)
  (evs : list event) (st : state) :
  map st = None -> mapEvent st = None -> locating st = false ->
  exists f, session Number LocalTZA evs st = with_form f st.
Proof.
  revert st. induction evs as [|ev evs IH]; intros st Hm Hev Hloc.
  - exists (form st). now destruct st.
  - rewrite session_cons.
    assert (exists f, dispatch Number LocalTZA ev st = with_form f st) as [f Hf].
    { assert (st = with_form (form st) st) as Hst by now destruct st.
      destruct ev as [latitude longitude| |ll|which text|c|target]; unfold dispatch;
        rewrite ?Hloc, ?Hm; try (now exists (form st)).
      - now eexists.
      - destruct (listening st); [| now exists (form st)].
        rewrite (AppFacts.newWorkout_no_click Number LocalTZA c st Hev).
        now exists (form st).
      - destruct (listening st); [| now exists (form st)].
        destruct (SessionFacts.centerMapOnPopup_cases target st)
          as [-> | (lm & co & Hsome & _)]; [now exists (form st) | congruence]. }
    rewrite Hf. destruct (IH (with_form f st) Hm Hev Hloc) as [f' ->].
    now exists f'.
Qed.

Lemma no_map_no_entries_witness :
  exists f,
    session Sample.Number Sample.UTC
      ([MapClicked Sample.here] ++ Sample.fill_running
         ++ [FormSubmitted (Sample.at_time Sample.t0)])
      (load false Sample.blank None)
    = with_form f (load false Sample.blank None).
Proof.
  apply (no_map_no_entries Sample.Number Sample.UTC); reflexivity.
Defined.

(** ** An [undefined] in the log *)

Lemma forallb_renderable_In (l : list value) (e : value) :
  In e l -> renderable e = false -> forallb renderable l = false.
Proof.
  intros Hin He. induction l as [|x l IH]; [contradiction |].
  cbn. destruct Hin as [-> | Hin]; [now rewrite He |].
  rewrite (IH Hin). apply andb_false_r.
Qed.

(** X14: once [undefined] is in the log, as a submission of a third kind leaves
    it, the next submission that succeeds persists it as [null], and the
    visit that finds this snapshot fails on the list item of [null]: the
    constructor does not register its listeners. *)
Theorem undefined_in_log_stops_next_visit
  (Number : string -> number) (LocalTZA : Z -> Z) (c : Entry.clock)
  (st : state) (w : value) (geolocation : bool) (f : form_fields) :
  logs Number LocalTZA c st w ->
  In VUndefined (entries (workouts st)) ->
  listening (load geolocation f
               (localStorage (final_state (_newWorkout Number LocalTZA c st))))
  = false.
Proof.
  intros (l & st' & Hws & Hrun & Hws') Hin. rewrite Hrun. cbn [final_state].
  rewrite Hws in Hin. cbn [entries] in Hin.
  destruct (SessionFacts.newWorkout_returned Number LocalTZA c st st' Hrun)
    as [-> | (ll & l0 & lm & w0 & _ & Hws0 & _ & -> & _)].
  - cbn in Hws'. rewrite Hws in Hws'. injection Hws' as Hl.
    apply (f_equal (@List.length value)) in Hl. rewrite length_app in Hl.
    cbn in Hl. lia.
  - cbn [localStorage logged]. unfold snapshot.
    rewrite JSONFacts.stringify_array.
    apply (load_unrenderable geolocation f _
             (List.map JSON.parse (List.map Snapshot.item (l0 ++ [w0]))));
      [reflexivity |].
    apply (forallb_renderable_In _ VNull); [| reflexivity].
    rewrite Hws in Hws0. injection Hws0 as <-.
    change VNull with (JSON.parse (Snapshot.item VUndefined)).
    apply in_map, in_map, in_or_app. now left.
Qed.

Lemma undefined_in_log_stops_next_visit_witness :
  listening (load true Sample.blank
               (localStorage
                  (final_state (_newWorkout Sample.Number Sample.UTC
                                  (Sample.at_time (Sample.t0 + 5000))
                                  Sample.run_typed_after_swimming))))
  = false.
Proof.
  apply (undefined_in_log_stops_next_visit Sample.Number Sample.UTC
           (Sample.at_time (Sample.t0 + 5000)) Sample.run_typed_after_swimming
           (Entry.Running Sample.UTC (Sample.at_time (Sample.t0 + 5000))
              (coordinates_of Sample.here) (Sample.Number "5.2")
              (Sample.Number "24") (Sample.Number "178"))).
  - exists [VUndefined].
    exists (final_state (_newWorkout Sample.Number Sample.UTC
                           (Sample.at_time (Sample.t0 + 5000))
                           Sample.run_typed_after_swimming)).
    split; [vm_compute; reflexivity |]. split; vm_compute; reflexivity.
  - vm_compute. now left.
Defined.

(** ** The stored text *)

Lemma dispatch_storage (Number : string -> number) (LocalTZA : Z -> Z)
  (ev : event) (st : state) :
  localStorage (dispatch Number LocalTZA ev st) = localStorage st
  \/ exists items,
      localStorage (dispatch Number LocalTZA ev st)
      = Some (Document (JSON.JArray items)).
Proof.
  destruct ev as [latitude longitude| |ll|which text|c|target]; unfold dispatch.
  - destruct (locating st); [| now left].
    destruct (SessionFacts.loadMap_frame latitude longitude (with_locating false st))
      as [lm ->].
    now left.
  - destruct (locating st); now left.
  - destruct (map st); now left.
  - now left.
  - destruct (listening st); [| now left].
    destruct (newWorkout_final Number LocalTZA c st) as [-> | [-> | [w ->]]];
      try (now left).
    destruct (log_final w st) as [[_ ->] | (l & Hws & [-> | [-> | (lm & _ & ->)]])];
      try (now left).
    right. cbn [localStorage logged]. unfold snapshot.
    rewrite JSONFacts.stringify_array. eexists. reflexivity.
  - destruct (listening st); [| now left].
    destruct (SessionFacts.centerMapOnPopup_cases target st)
      as [-> | (lm & co & _ & ->)]; now left.
Qed.

(** X15: whatever happens on the page, the text under the key is the text that
    was there or the text of a JSON array: the program writes nothing else
    there. ([reset], which removes the key, is called from the console
    only and is no event of the page.) *)
Theorem storage_holds_an_array
  (Number : string -> number) (LocalTZA : Z -> Z)
  (evs : list event) (st : state) :
  localStorage (session Number LocalTZA evs st) = localStorage st
  \/ exists items,
      localStorage (session Number LocalTZA evs st)
      = Some (Document (JSON.JArray items)).
Proof.
  revert st. induction evs as [|ev evs IH]; intros st; [now left |].
  rewrite session_cons.
  destruct (IH (dispatch Number LocalTZA ev st)) as [-> | Harray];
    [apply dispatch_storage | now right].
Qed.
